(** * Variability estimators of [gammapy.stats.variability]

    A shallow embedding of [compute_fvar], [compute_fpp] and
    [compute_chisq] over IEEE-754 binary64 values (Rocq's primitive
    floats), together with the small part of numpy the three functions
    call: element-wise arithmetic with broadcasting, reductions along an
    axis, NaN-aware reductions, transposition and trailing-axis slicing.

    Conventions of the embedding:
    - a [float64] array of rank 0, 1 or 2 is an [ndarray]; a rank-2
      array is the list of its rows;
    - every numpy call that can raise returns a [result];
    - reductions add the elements in index order, starting from [+0];
      numpy's blocked pairwise summation of long arrays is not
      reproduced;
    - [x ** 2] is [x * x], as numpy evaluates a power with exponent 2. *)

From Stdlib Require Import ZArith List Bool Lia Floats.
From Stdlib Require Uint63 Ascii String.
Import ListNotations.

Set Warnings "-inexact-float".

Local Open Scope float_scope.

(** ** IEEE-754 binary64 values

    Classes of values, on the specification-level floats of the standard
    library and on the primitive ones. *)

Module IEEE.

(** numpy's [float64] is the primitive binary64 type. *)
Abbreviation float64 := float (only parsing).

(** Classes of specification-level floats. *)
Definition sf_is_nan (s : spec_float) : bool :=
  match s with S754_nan => true | _ => false end.

Definition sf_nan_or_inf (s : spec_float) : bool :=
  match s with S754_nan | S754_infinity _ => true | _ => false end.

Definition sf_is_zero (s : spec_float) : bool :=
  match s with S754_zero _ => true | _ => false end.

(** [0 <= x]: any zero, or a positive finite or infinite value. *)
Definition sf_nonneg (s : spec_float) : bool :=
  match s with
  | S754_zero _ | S754_infinity false | S754_finite false _ _ => true
  | _ => false
  end.

Definition sf_pos_finite (s : spec_float) : bool :=
  match s with S754_finite false _ _ => true | _ => false end.

(** The result carries sign [sx] and is not NaN. *)
Definition sf_signed (sx : bool) (s : spec_float) : Prop :=
  match s with
  | S754_zero b | S754_infinity b | S754_finite b _ _ => b = sx
  | S754_nan => False
  end.

(** As [sf_signed], and not a zero either. *)
Definition sf_signed_nz (sx : bool) (s : spec_float) : Prop :=
  match s with
  | S754_infinity b | S754_finite b _ _ => b = sx
  | _ => False
  end.

(** Executable views on primitive floats. *)
Definition is_nan_or_inf (x : float64) : bool := negb (is_finite x).
Definition is_nonneg (x : float64) : bool := (0 <=? x).
Definition is_pos_finite (x : float64) : bool := (0 <? x) && is_finite x.

End IEEE.

(** ** The part of numpy the module calls *)

Module Np.
Import IEEE.

(** Exceptions numpy raises on the modelled calls. *)
Inductive exn := ValueError | AxisError | IndexError.

Inductive result (A : Type) :=
| Ok (a : A)
| Raise (e : exn).
Arguments Ok {A} a.
Arguments Raise {A} e.

Definition bind {A B : Type} (r : result A) (k : A -> result B) : result B :=
  match r with
  | Ok a => k a
  | Raise e => Raise e
  end.

Notation "x <- c ;; k" := (bind c (fun x => k))
  (at level 61, c at next level, right associativity).

Fixpoint mapM {A B : Type} (f : A -> result B) (l : list A) : result (list B) :=
  match l with
  | [] => Ok []
  | a :: l' => b <- f a ;; bs <- mapM f l' ;; Ok (b :: bs)
  end.

(** A [float64] array of rank 0, 1 or 2; a rank-2 array is row-major. *)
Inductive ndarray :=
| Scalar (x : float64)
| Vec (v : list float64)
| Mat (rows : list (list float64)).

(** An integer array of rank 0 or 1 (the counts a reduction returns). *)
Inductive intarray :=
| IScalar (n : Z)
| IVec (ns : list Z).

Definition zip_with {A B C : Type} (f : A -> B -> C) (u : list A) (v : list B)
  : list C :=
  map (fun p => f (fst p) (snd p)) (combine u v).

Definition ncols (rows : list (list float64)) : nat := length (hd [] rows).

Definition column (j : nat) (rows : list (list float64)) : list float64 :=
  map (fun r => nth j r 0) rows.

Definition transpose (rows : list (list float64)) : list (list float64) :=
  map (fun j => column j rows) (seq 0 (ncols rows)).

(** [rect n m rows]: a well-formed [n] by [m] array. *)
Definition rect (n m : nat) (rows : list (list float64)) : Prop :=
  length rows = n /\ Forall (fun r => length r = m) rows.

(** *** Element-wise operations and broadcasting *)

(** Two rank-1 operands: equal lengths, or one of them of length 1. *)
Definition bcast_vec (f : float64 -> float64 -> float64) (u v : list float64)
  : result (list float64) :=
  if Nat.eqb (length u) (length v) then Ok (zip_with f u v)
  else if Nat.eqb (length u) 1 then Ok (map (f (hd 0 u)) v)
  else if Nat.eqb (length v) 1 then Ok (map (fun x => f x (hd 0 v)) u)
  else Raise ValueError.

Definition bcast_mat (f : float64 -> float64 -> float64)
  (a b : list (list float64)) : result (list (list float64)) :=
  if Nat.eqb (length a) (length b)
  then mapM (fun p => bcast_vec f (fst p) (snd p)) (combine a b)
  else if Nat.eqb (length a) 1 then mapM (fun r => bcast_vec f (hd [] a) r) b
  else if Nat.eqb (length b) 1 then mapM (fun r => bcast_vec f r (hd [] b)) a
  else Raise ValueError.

(** A binary ufunc: shapes are aligned on their trailing dimension. *)
Definition binop (f : float64 -> float64 -> float64) (a b : ndarray)
  : result ndarray :=
  match a, b with
  | Scalar x, Scalar y => Ok (Scalar (f x y))
  | Scalar x, Vec v => Ok (Vec (map (f x) v))
  | Vec u, Scalar y => Ok (Vec (map (fun x => f x y) u))
  | Scalar x, Mat m => Ok (Mat (map (map (f x)) m))
  | Mat m, Scalar y => Ok (Mat (map (map (fun x => f x y)) m))
  | Vec u, Vec v => w <- bcast_vec f u v ;; Ok (Vec w)
  | Mat m, Vec v => m' <- mapM (fun r => bcast_vec f r v) m ;; Ok (Mat m')
  | Vec u, Mat m => m' <- mapM (fun r => bcast_vec f u r) m ;; Ok (Mat m')
  | Mat m1, Mat m2 => m' <- bcast_mat f m1 m2 ;; Ok (Mat m')
  end.

Definition unop (f : float64 -> float64) (a : ndarray) : ndarray :=
  match a with
  | Scalar x => Scalar (f x)
  | Vec v => Vec (map f v)
  | Mat m => Mat (map (map f) m)
  end.

Definition np_sub := binop PrimFloat.sub.
Definition np_div := binop PrimFloat.div.
Definition np_mul := binop PrimFloat.mul.
Definition np_add := binop PrimFloat.add.
Definition np_sqrt := unop PrimFloat.sqrt.
Definition np_abs := unop PrimFloat.abs.

(** [a ** 2]. *)
Definition sq (x : float64) : float64 := x * x.
Definition np_square := unop sq.

(** *** Reductions *)

Definition normalize_axis (axis ndim : Z) : result Z :=
  if ((- ndim <=? axis) && (axis <? ndim))%Z
  then Ok (if (axis <? 0)%Z then (axis + ndim)%Z else axis)
  else Raise AxisError.

(** A reduction of a 0-d array accepts the axes 0 and -1. *)
Definition normalize_axis_0d (axis : Z) : result Z :=
  if ((axis =? 0) || (axis =? -1))%Z then Ok 0%Z else Raise AxisError.

Definition reduce {A : Type} (scalar : A -> ndarray) (vec : list A -> ndarray)
  (g : list float64 -> A) (a : ndarray) (axis : Z) : result ndarray :=
  match a with
  | Scalar x => _ <- normalize_axis_0d axis ;; Ok (scalar (g [x]))
  | Vec v => _ <- normalize_axis axis 1 ;; Ok (scalar (g v))
  | Mat rows =>
      ax <- normalize_axis axis 2 ;;
      Ok (vec (map g (if (ax =? 0)%Z then transpose rows else rows)))
  end.

(** [np.sum] of one lane. *)
Definition sum1 (l : list float64) : float64 := fold_left PrimFloat.add l 0.

Definition nan_to_zero (x : float64) : float64 := if is_nan x then 0 else x.

(** [np.nansum] of one lane: NaN entries are replaced by zero. *)
Definition nansum1 (l : list float64) : float64 := sum1 (map nan_to_zero l).

(** [np.count_nonzero(~np.isnan(l))] of one lane. *)
Definition count1 (l : list float64) : Z :=
  Z.of_nat (length (filter (fun x => negb (is_nan x)) l)).

(** Conversion of an integer to [float64]. *)
Definition Z2F (z : Z) : float64 :=
  if (z <? 0)%Z then - (of_uint63 (Uint63.of_Z (- z)))
  else of_uint63 (Uint63.of_Z z).

(** [np.nanmean] of one lane: NaN-free total over the count of non-NaN. *)
Definition nanmean1 (l : list float64) : float64 := nansum1 l / Z2F (count1 l).

(** [np.mean] of one lane. *)
Definition mean1 (l : list float64) : float64 :=
  sum1 l / Z2F (Z.of_nat (length l)).

Definition np_sum := reduce Scalar Vec sum1.
Definition np_nansum := reduce Scalar Vec nansum1.
Definition np_nanmean := reduce Scalar Vec nanmean1.

(** [np.count_nonzero(~np.isnan(a), axis=axis)]. *)
Definition count_not_nan (a : ndarray) (axis : Z) : result intarray :=
  match a with
  | Scalar x => _ <- normalize_axis_0d axis ;; Ok (IScalar (count1 [x]))
  | Vec v => _ <- normalize_axis axis 1 ;; Ok (IScalar (count1 v))
  | Mat rows =>
      ax <- normalize_axis axis 2 ;;
      Ok (IVec (map count1 (if (ax =? 0)%Z then transpose rows else rows)))
  end.

(** [np.mean(a)] with no axis: the mean of all entries. *)
Definition np_mean_all (a : ndarray) : float64 :=
  match a with
  | Scalar x => x
  | Vec v => mean1 v
  | Mat rows => mean1 (concat rows)
  end.

(** *** Integer arrays *)

Definition int_sub (a : intarray) (k : Z) : intarray :=
  match a with
  | IScalar n => IScalar (n - k)
  | IVec ns => IVec (map (fun n => (n - k)%Z) ns)
  end.

(** Promotion of an integer operand in a true division. *)
Definition to_float (a : intarray) : ndarray :=
  match a with
  | IScalar n => Scalar (Z2F n)
  | IVec ns => Vec (map Z2F ns)
  end.

(** [a.T] of an integer array of rank at most 1. *)
Definition int_T (a : intarray) : intarray := a.

(** *** Axes and slices *)

(** [a.T]. *)
Definition np_T (a : ndarray) : ndarray :=
  match a with
  | Mat rows => Mat (transpose rows)
  | _ => a
  end.

(** [a.swapaxes(i, j)]. *)
Definition swapaxes (a : ndarray) (i j : Z) : result ndarray :=
  match a with
  | Scalar _ => Raise AxisError
  | Vec _ => _ <- normalize_axis i 1 ;; _ <- normalize_axis j 1 ;; Ok a
  | Mat rows =>
      i' <- normalize_axis i 2 ;;
      j' <- normalize_axis j 2 ;;
      Ok (if (i' =? j')%Z then a else Mat (transpose rows))
  end.

(** [a[..., 1:]]. *)
Definition drop_first (a : ndarray) : result ndarray :=
  match a with
  | Scalar _ => Raise IndexError
  | Vec v => Ok (Vec (tl v))
  | Mat rows => Ok (Mat (map (@tl float64) rows))
  end.

(** [a[..., :-1]]. *)
Definition drop_last (a : ndarray) : result ndarray :=
  match a with
  | Scalar _ => Raise IndexError
  | Vec v => Ok (Vec (removelast v))
  | Mat rows => Ok (Mat (map (@removelast float64) rows))
  end.

End Np.

(** ** The three estimators *)

Module Variability.
Import IEEE Np.

(** [compute_fvar(flux, flux_err, axis=0)]. *)
Definition compute_fvar (flux flux_err : ndarray) (axis : Z)
  : result (ndarray * ndarray) :=
  flux_mean <- np_nanmean flux axis ;;
  n_points <- count_not_nan flux axis ;;
  dev <- np_sub flux flux_mean ;;
  dev_sum <- np_nansum (np_square dev) axis ;;
  s_square <- np_div dev_sum (to_float (int_sub n_points 1)) ;;
  err_sum <- np_nansum (np_square flux_err) axis ;;
  sig_square <- np_div err_sum (to_float n_points) ;;
  excess <- np_sub s_square sig_square ;;
  fvar <- np_div (np_sqrt (np_abs excess)) flux_mean ;;
  two_over_n <- np_div (Scalar 2) (to_float n_points) ;;
  a_num <- np_mul (np_sqrt two_over_n) sig_square ;;
  sigxserr_a <- np_div a_num (np_square flux_mean) ;;
  sig_over_n <- np_div sig_square (to_float n_points) ;;
  two_fvar <- np_mul (Scalar 2) fvar ;;
  b_fac <- np_div two_fvar flux_mean ;;
  sigxserr_b <- np_mul (np_sqrt sig_over_n) b_fac ;;
  quad <- np_add (np_square sigxserr_a) (np_square sigxserr_b) ;;
  let sigxserr := np_sqrt quad in
  two_fvar' <- np_mul (Scalar 2) fvar ;;
  fvar_err <- np_div sigxserr two_fvar' ;;
  Ok (fvar, fvar_err).

(** [compute_fpp(flux, flux_err, axis=0)]. *)
Definition compute_fpp (flux flux_err : ndarray) (axis : Z)
  : result (ndarray * ndarray) :=
  flux_mean <- np_nanmean flux axis ;;
  n_points <- count_not_nan flux axis ;;
  swapped <- swapaxes flux 0 axis ;;
  let flux_t := np_T swapped in
  hi <- drop_first flux_t ;;
  lo <- drop_last flux_t ;;
  diffs <- np_sub hi lo ;;
  diff_sum <- np_nansum (np_square diffs) (-1) ;;
  s_square <- np_div diff_sum (to_float (int_sub (int_T n_points) 1)) ;;
  err_sum <- np_nansum (np_square flux_err) axis ;;
  sig_square <- np_div err_sum (to_float n_points) ;;
  excess <- np_sub (np_T s_square) sig_square ;;
  fpp <- np_div (np_sqrt (np_abs excess)) flux_mean ;;
  two_over_n <- np_div (Scalar 2) (to_float n_points) ;;
  a_num <- np_mul (np_sqrt two_over_n) sig_square ;;
  sigxserr_a <- np_div a_num (np_square flux_mean) ;;
  sig_over_n <- np_div sig_square (to_float n_points) ;;
  two_fpp <- np_mul (Scalar 2) fpp ;;
  b_fac <- np_div two_fpp flux_mean ;;
  sigxserr_b <- np_mul (np_sqrt sig_over_n) b_fac ;;
  quad <- np_add (np_square sigxserr_a) (np_square sigxserr_b) ;;
  let sigxserr := np_sqrt quad in
  two_fpp' <- np_mul (Scalar 2) fpp ;;
  fpp_err <- np_div sigxserr two_fpp' ;;
  Ok (fpp, fpp_err).

(** *** The estimators of one series (scalar formulas)

    These follow the documented formulas, series by series; the
    theorems below relate them to the array code above. *)

(** Lines 56 to 61 of the source on scalars: the estimator and its error
    from the mean, the count, the variance term and the mean square
    error. *)
Definition excess_variance (flux_mean : float64) (n_points : Z)
  (s_square sig_square : float64) : float64 * float64 :=
  let fvar := PrimFloat.sqrt (abs (s_square - sig_square)) / flux_mean in
  let a := PrimFloat.sqrt (2 / Z2F n_points) * sig_square / sq flux_mean in
  let b := PrimFloat.sqrt (sig_square / Z2F n_points) * (2 * fvar / flux_mean) in
  (fvar, PrimFloat.sqrt (sq a + sq b) / (2 * fvar)).

(** Sample variance of one series about its NaN-aware mean; NaN terms
    contribute zero. *)
Definition s_square_fvar (flux : list float64) : float64 :=
  nansum1 (map (fun x => sq (x - nanmean1 flux)) flux) / Z2F (count1 flux - 1).

(** Mean square error, with the sum over [flux_err ** 2] left as a
    parameter: [sum1] for a plain sum, [nansum1] for a NaN-aware one. *)
Definition sig_square_with (total : list float64 -> float64)
  (flux flux_err : list float64) : float64 :=
  total (map sq flux_err) / Z2F (count1 flux).

Definition fvar_with (total : list float64 -> float64)
  (flux flux_err : list float64) : float64 * float64 :=
  excess_variance (nanmean1 flux) (count1 flux) (s_square_fvar flux)
    (sig_square_with total flux flux_err).

(** The formula as the specification words it: a plain sum over
    [flux_err ** 2]. *)
Definition fvar_spec := fvar_with sum1.

(** The formula with a NaN-aware sum over [flux_err ** 2]. *)
Definition fvar_lane := fvar_with nansum1.

(** First differences of one series, and their squares. *)
Definition diffs (flux : list float64) : list float64 :=
  zip_with PrimFloat.sub (tl flux) (removelast flux).

Definition sq_diffs (flux : list float64) : list float64 := map sq (diffs flux).

(** Point-to-point variance term of one series, with the sum over the
    squared differences left as a parameter. *)
Definition s_square_fpp_with (total : list float64 -> float64)
  (flux : list float64) : float64 :=
  total (sq_diffs flux) / Z2F (count1 flux - 1).

Definition fpp_with (total : list float64 -> float64)
  (flux flux_err : list float64) : float64 * float64 :=
  excess_variance (nanmean1 flux) (count1 flux) (s_square_fpp_with total flux)
    (sig_square_with nansum1 flux flux_err).

(** The point-to-point formula with the NaN-aware sum the source calls. *)
Definition fpp_lane := fpp_with nansum1.

(** *** The source from the estimator line on *)

(** The source from the line computing the estimator to the return. *)
Definition estimator_tail (flux_mean : ndarray) (n_points : intarray)
  (s_square sig_square : ndarray) : result (ndarray * ndarray) :=
  excess <- np_sub s_square sig_square ;;
  fvar <- np_div (np_sqrt (np_abs excess)) flux_mean ;;
  two_over_n <- np_div (Scalar 2) (to_float n_points) ;;
  a_num <- np_mul (np_sqrt two_over_n) sig_square ;;
  sigxserr_a <- np_div a_num (np_square flux_mean) ;;
  sig_over_n <- np_div sig_square (to_float n_points) ;;
  two_fvar <- np_mul (Scalar 2) fvar ;;
  b_fac <- np_div two_fvar flux_mean ;;
  sigxserr_b <- np_mul (np_sqrt sig_over_n) b_fac ;;
  quad <- np_add (np_square sigxserr_a) (np_square sigxserr_b) ;;
  let sigxserr := np_sqrt quad in
  two_fvar' <- np_mul (Scalar 2) fvar ;;
  fvar_err <- np_div sigxserr two_fvar' ;;
  Ok (fvar, fvar_err).

(** *** The chi-square test *)

Section WithSurvivalFunction.

(** The survival function of the chi-square distribution,
    [scipy.stats.distributions.chi2.sf(x, df)]: a library function the
    module does not define, kept as a parameter. *)
Variable chi2_sf : float64 -> Z -> float64.

(** Length of the leading axis. *)
Definition num_obs (a : ndarray) : Z :=
  match a with
  | Scalar _ => 1
  | Vec v => Z.of_nat (length v)
  | Mat rows => Z.of_nat (length rows)
  end.

(** Modelled from the spec: [scipy.stats.chisquare(f_obs, f_exp)], which
    is not part of the repository. It is the goodness-of-fit statistic
    [sum((f_obs - f_exp) ** 2 / f_exp)] along axis 0, [f_exp] broadcast
    to every observation, with its p-value under the chi-square
    distribution with (number of observations - 1) degrees of freedom. *)
Definition chisquare (f_obs f_exp : ndarray) : result (ndarray * ndarray) :=
  dev <- np_sub f_obs f_exp ;;
  terms <- np_div (np_square dev) f_exp ;;
  stat <- np_sum terms 0 ;;
  Ok (stat, unop (fun x => chi2_sf x (num_obs terms - 1)) stat).

(** [compute_chisq(flux)]. *)
Definition compute_chisq (flux : ndarray) : result (ndarray * ndarray) :=
  let yexp := np_mean_all flux in
  let yobs := flux in
  chisquare yobs (Scalar yexp).

(** The statistic of one series against one expected value. *)
Definition chisq_stat (yobs : list float64) (yexp : float64) : float64 :=
  sum1 (map (fun x => sq (x - yexp) / yexp) yobs).

End WithSurvivalFunction.

(** *** Counting the terms of the point-to-point sum *)

(** A valid entry is one that is not NaN. *)
Definition valid (x : float64) : bool := negb (is_nan x).

(** Number of maximal runs of consecutive valid entries; [prev] tells
    whether the entry before the list was valid. *)
Fixpoint runs_from (prev : bool) (l : list float64) : nat :=
  match l with
  | [] => 0
  | x :: l' => (if valid x && negb prev then 1 else 0) + runs_from (valid x) l'
  end.

Definition runs (l : list float64) : nat := runs_from false l.

(** Number of adjacent pairs of valid entries. *)
Fixpoint pairs_from (prev : bool) (l : list float64) : nat :=
  match l with
  | [] => 0
  | x :: l' => (if valid x && prev then 1 else 0) + pairs_from (valid x) l'
  end.

(** The divisor of the variance term of [compute_fpp] on one series. *)
Definition fpp_divisor (flux : list float64) : Z := count1 flux - 1.

(** Number of difference terms the NaN-aware sum really adds. *)
Definition summed_terms (flux : list float64) : Z := count1 (sq_diffs flux).

(** Entries that are finite or NaN: no infinity. *)
Definition no_infinity (l : list float64) : Prop :=
  Forall (fun x => is_infinity x = false) l.

End Variability.

(** ** The version strings of the documentation build ([docs/conf.py]) *)

Module DocsConf.
Import Ascii String.

(** The hyphen, the separator of [split('-', 1)]. *)
Definition hyphen : ascii := Ascii.ascii_of_nat 45.

(** [s.split('-', 1)]: the text before the first hyphen, followed by
    the text after it when there is one. *)
Fixpoint split_hyphen_once (s : string) : list string :=
  match s with
  | EmptyString => [EmptyString]
  | String c rest =>
      if Ascii.eqb c hyphen then [EmptyString; rest]
      else match split_hyphen_once rest with
           | first :: others => String c first :: others
           | [] => [String c EmptyString]
           end
  end.

(** ['-'.join(parts)]. *)
Fixpoint join_hyphen (parts : list string) : string :=
  match parts with
  | [] => EmptyString
  | [p] => p
  | p :: ps => append p (String hyphen (join_hyphen ps))
  end.

(** [version = package.__version__.split('-', 1)[0]]; indexing an empty
    list would raise. *)
Definition version (package_version : string) : option string :=
  nth_error (split_hyphen_once package_version) 0.

(** [release = package.__version__]. *)
Definition release (package_version : string) : string := package_version.

(** ['-' in s]. *)
Fixpoint has_hyphen (s : string) : bool :=
  match s with
  | EmptyString => false
  | String c rest => Ascii.eqb c hyphen || has_hyphen rest
  end.

End DocsConf.

(** ** IEEE-754 binary64 facts

    The primitive operations are related to their specification on
    [spec_float] by the standard library; the lemmas below are case
    analyses on that specification. *)

Module IEEEFacts.
Import IEEE.

Lemma SFeqb_refl (s : spec_float) : SFeqb s s = negb (sf_is_nan s).
Proof.
  destruct s as [b|b| |b m e]; try reflexivity.
  - destruct b; reflexivity.
  - unfold SFeqb, SFcompare.
    destruct b; rewrite Z.compare_refl, Pos.compare_cont_refl; reflexivity.
Qed.

Lemma is_nan_spec (x : float64) : is_nan x = sf_is_nan (Prim2SF x).
Proof.
  unfold is_nan. rewrite eqb_spec, SFeqb_refl. apply negb_involutive.
Qed.

Lemma Prim2SF_infinity : Prim2SF infinity = S754_infinity false.
Proof. reflexivity. Qed.

Lemma Prim2SF_zero : Prim2SF 0 = S754_zero false.
Proof. reflexivity. Qed.

Lemma is_infinity_spec (x : float64) :
  is_infinity x = match Prim2SF x with S754_infinity _ => true | _ => false end.
Proof.
  unfold is_infinity. rewrite eqb_spec, abs_spec, Prim2SF_infinity.
  destruct (Prim2SF x) as [b|b| |b m e]; reflexivity.
Qed.

Lemma is_nan_or_inf_spec (x : float64) :
  is_nan_or_inf x = sf_nan_or_inf (Prim2SF x).
Proof.
  unfold is_nan_or_inf, is_finite.
  rewrite is_nan_spec, is_infinity_spec, negb_involutive.
  destruct (Prim2SF x); reflexivity.
Qed.

Lemma is_nonneg_spec (x : float64) : is_nonneg x = sf_nonneg (Prim2SF x).
Proof.
  unfold is_nonneg. rewrite leb_spec, Prim2SF_zero.
  destruct (Prim2SF x) as [b|[]| |[] m e]; reflexivity.
Qed.

Lemma is_pos_finite_spec (x : float64) :
  is_pos_finite x = sf_pos_finite (Prim2SF x).
Proof.
  unfold is_pos_finite, is_finite.
  rewrite ltb_spec, Prim2SF_zero, is_nan_spec, is_infinity_spec.
  destruct (Prim2SF x) as [b|[]| |[] m e]; reflexivity.
Qed.

Lemma is_zero_spec (x : float64) : is_zero x = sf_is_zero (Prim2SF x).
Proof.
  unfold is_zero. rewrite eqb_spec.
  change (Prim2SF zero) with (S754_zero false).
  destruct (Prim2SF x) as [b|[]| |[] m e]; reflexivity.
Qed.

Lemma nan_is_nan_or_inf (x : float64) : is_nan x = true -> is_nan_or_inf x = true.
Proof.
  rewrite is_nan_spec, is_nan_or_inf_spec. destruct (Prim2SF x); auto.
Qed.

(** *** Rounding never invents a NaN or flips a sign *)

Lemma iter_pos_inv {A : Type} (P : A -> Prop) (f : A -> A) :
  (forall x, P x -> P (f x)) -> forall p x, P x -> P (iter_pos f p x).
Proof.
  intros Hf p. induction p as [p IH|p IH|]; simpl; intros x Hx; auto.
Qed.

Lemma shr_1_nonneg (mrs : shr_record) :
  (0 <= shr_m mrs)%Z -> (0 <= shr_m (shr_1 mrs))%Z.
Proof.
  destruct mrs as [m r s]. simpl.
  destruct m as [|[p|p|]|p]; simpl; lia.
Qed.

Lemma shr_record_of_loc_m (m : Z) (l : location) :
  shr_m (shr_record_of_loc m l) = m.
Proof. destruct l as [|[]]; reflexivity. Qed.

Lemma shr_fexp_nonneg (m e : Z) (l : location) :
  (0 <= m)%Z -> (0 <= shr_m (fst (shr_fexp prec emax m e l)))%Z.
Proof.
  intros Hm. unfold shr_fexp, shr.
  destruct (fexp prec emax (Zdigits2 m + e) - e)%Z as [|p|p]; simpl;
    try (rewrite shr_record_of_loc_m; exact Hm).
  apply (iter_pos_inv (fun r => (0 <= shr_m r)%Z)).
  - exact shr_1_nonneg.
  - rewrite shr_record_of_loc_m; exact Hm.
Qed.

Lemma round_nearest_even_nonneg (m : Z) (l : location) :
  (0 <= m)%Z -> (0 <= round_nearest_even m l)%Z.
Proof.
  intros Hm. destruct l as [|[]]; simpl; try lia.
  destruct (Z.even m); lia.
Qed.

Lemma binary_round_aux_signed (sx : bool) (mx ex : Z) (lx : location) :
  (0 <= mx)%Z -> sf_signed sx (binary_round_aux prec emax sx mx ex lx).
Proof.
  intros Hm. unfold binary_round_aux.
  pose proof (shr_fexp_nonneg mx ex lx Hm) as H1.
  destruct (shr_fexp prec emax mx ex lx) as [mrs' e']. simpl in H1.
  pose proof (shr_fexp_nonneg _ e' loc_Exact
                (round_nearest_even_nonneg _ (loc_of_shr_record mrs') H1)) as H2.
  destruct (shr_fexp prec emax _ e' loc_Exact) as [mrs'' e'']. simpl in H2.
  destruct (shr_m mrs'') as [|p|p]; simpl; [reflexivity| |lia].
  destruct (e'' <=? _)%Z; reflexivity.
Qed.

Lemma binary_round_signed (sx : bool) (mx : positive) (ex : Z) :
  sf_signed sx (binary_round prec emax sx mx ex).
Proof.
  unfold binary_round.
  destruct (shl_align mx ex _) as [mz ez].
  apply binary_round_aux_signed. lia.
Qed.

Lemma binary_normalize_not_nan (m e : Z) (sz : bool) :
  sf_is_nan (binary_normalize prec emax m e sz) = false.
Proof.
  destruct m as [|p|p]; simpl; try reflexivity.
  - pose proof (binary_round_signed false p e) as H.
    destruct (binary_round prec emax false p e); simpl in *; tauto.
  - pose proof (binary_round_signed true p e) as H.
    destruct (binary_round prec emax true p e); simpl in *; tauto.
Qed.

(** *** Sign and NaN behaviour of the operations *)

Lemma sf_signed_false_nonneg (r : spec_float) : sf_signed false r -> sf_nonneg r = true.
Proof. destruct r as [b|b| |b m e]; simpl; intros H; subst; tauto. Qed.

Lemma sf_nonneg_not_nan (r : spec_float) : sf_nonneg r = true -> sf_is_nan r = false.
Proof. destruct r; simpl; congruence. Qed.

Lemma SFmul_self_nonneg (s : spec_float) :
  sf_is_nan s = false -> sf_nonneg (SF64mul s s) = true.
Proof.
  destruct s as [b|b| |b m e]; simpl; intros H; try discriminate.
  - reflexivity.
  - destruct b; reflexivity.
  - apply sf_signed_false_nonneg.
    rewrite <- (xorb_nilpotent b) at 1.
    apply binary_round_aux_signed. lia.
Qed.

Lemma SFadd_nonneg (a b : spec_float) :
  sf_nonneg a = true -> sf_nonneg b = true -> sf_nonneg (SF64add a b) = true.
Proof.
  destruct a as [sa|[]| |[] ma ea]; destruct b as [sb|[]| |[] mb eb];
    simpl; intros Ha Hb; try discriminate; try reflexivity.
  - destruct sa, sb; reflexivity.
  - apply sf_signed_false_nonneg, binary_round_signed.
Qed.

Lemma SFadd_nan_l (b : spec_float) : SF64add S754_nan b = S754_nan.
Proof. reflexivity. Qed.

Lemma SFadd_nan_r (a : spec_float) : SF64add a S754_nan = S754_nan.
Proof. destruct a; reflexivity. Qed.

Lemma SFdiv_zero_nan_or_inf (a : spec_float) (s : bool) :
  sf_nan_or_inf (SF64div a (S754_zero s)) = true.
Proof. destruct a; reflexivity. Qed.

Lemma SFdiv_nan_or_inf_l (a b : spec_float) :
  sf_nan_or_inf a = true -> sf_nan_or_inf (SF64div a b) = true.
Proof. destruct a, b; simpl; intros H; try discriminate; reflexivity. Qed.

Lemma SFdiv_nan_r (a : spec_float) : SF64div a S754_nan = S754_nan.
Proof. destruct a; reflexivity. Qed.

Lemma SFsub_nan_or_inf_l (a b : spec_float) :
  sf_nan_or_inf a = true -> sf_nan_or_inf (SF64sub a b) = true.
Proof.
  destruct a as [sa|sa| |sa ma ea]; destruct b as [sb|sb| |sb mb eb];
    simpl; intros H; try discriminate; try reflexivity.
  destruct sa, sb; reflexivity.
Qed.

Lemma SFabs_nan_or_inf (a : spec_float) :
  sf_nan_or_inf a = true -> sf_nan_or_inf (SFabs a) = true.
Proof. destruct a; simpl; congruence. Qed.

Lemma SFsqrt_nan_or_inf (a : spec_float) :
  sf_nan_or_inf a = true -> sf_nan_or_inf (SF64sqrt a) = true.
Proof. destruct a as [b|[]| |b m e]; simpl; congruence. Qed.

(** The same facts on primitive floats. *)

Lemma sq_nonneg (x : float64) : is_nan x = false -> is_nonneg (x * x) = true.
Proof.
  rewrite is_nan_spec, is_nonneg_spec, mul_spec. apply SFmul_self_nonneg.
Qed.

Lemma nan_mul_nan (x : float64) : is_nan x = true -> is_nan (x * x) = true.
Proof.
  rewrite !is_nan_spec, mul_spec. destruct (Prim2SF x); simpl; congruence.
Qed.

Lemma add_nonneg (x y : float64) :
  is_nonneg x = true -> is_nonneg y = true -> is_nonneg (x + y) = true.
Proof. rewrite !is_nonneg_spec, add_spec. apply SFadd_nonneg. Qed.

Lemma nonneg_not_nan (x : float64) : is_nonneg x = true -> is_nan x = false.
Proof. rewrite is_nonneg_spec, is_nan_spec. apply sf_nonneg_not_nan. Qed.

Lemma add_nan_l (x y : float64) : is_nan x = true -> is_nan (x + y) = true.
Proof.
  rewrite !is_nan_spec, add_spec. destruct (Prim2SF x); simpl; congruence.
Qed.

Lemma add_nan_r (x y : float64) : is_nan y = true -> is_nan (x + y) = true.
Proof.
  rewrite !is_nan_spec, add_spec.
  destruct (Prim2SF y); simpl; try congruence. rewrite SFadd_nan_r. reflexivity.
Qed.

Lemma sub_nan_r (x y : float64) : is_nan y = true -> is_nan (x - y) = true.
Proof.
  rewrite !is_nan_spec, sub_spec.
  destruct (Prim2SF y); simpl; try congruence. destruct (Prim2SF x); reflexivity.
Qed.

Lemma div_nan_l (x y : float64) : is_nan x = true -> is_nan (x / y) = true.
Proof.
  rewrite !is_nan_spec, div_spec. destruct (Prim2SF x); simpl; congruence.
Qed.

Lemma div_nan_r (x y : float64) : is_nan y = true -> is_nan (x / y) = true.
Proof.
  rewrite !is_nan_spec, div_spec.
  destruct (Prim2SF y); simpl; try congruence. rewrite SFdiv_nan_r. reflexivity.
Qed.

Lemma div_zero_nan_or_inf (x y : float64) :
  is_zero y = true -> is_nan_or_inf (x / y) = true.
Proof.
  rewrite is_zero_spec, is_nan_or_inf_spec, div_spec.
  destruct (Prim2SF y); simpl; try congruence. intros _. apply SFdiv_zero_nan_or_inf.
Qed.

Lemma div_nan_or_inf_l (x y : float64) :
  is_nan_or_inf x = true -> is_nan_or_inf (x / y) = true.
Proof. rewrite !is_nan_or_inf_spec, div_spec. apply SFdiv_nan_or_inf_l. Qed.

Lemma sub_nan_or_inf_l (x y : float64) :
  is_nan_or_inf x = true -> is_nan_or_inf (x - y) = true.
Proof. rewrite !is_nan_or_inf_spec, sub_spec. apply SFsub_nan_or_inf_l. Qed.

Lemma abs_nan_or_inf (x : float64) :
  is_nan_or_inf x = true -> is_nan_or_inf (abs x) = true.
Proof. rewrite !is_nan_or_inf_spec, abs_spec. apply SFabs_nan_or_inf. Qed.

Lemma sqrt_nan_or_inf (x : float64) :
  is_nan_or_inf x = true -> is_nan_or_inf (PrimFloat.sqrt x) = true.
Proof. rewrite !is_nan_or_inf_spec, sqrt_spec. apply SFsqrt_nan_or_inf. Qed.

(** *** Non-negative results of square root and division *)

Lemma SFsub_ltb_not_nan (a b : spec_float) :
  SFltb a b = true -> sf_is_nan (SF64sub a b) = false.
Proof.
  destruct a as [sa|sa| |sa ma ea]; destruct b as [sb|sb| |sb mb eb]; intros H;
    try discriminate H; try reflexivity;
    try (destruct sa, sb; try discriminate H; reflexivity).
  apply binary_normalize_not_nan.
Qed.

Lemma SFsqrt_abs_nonneg (d : spec_float) :
  sf_is_nan d = false -> sf_nonneg (SF64sqrt (SFabs d)) = true.
Proof.
  destruct d as [s|s| |s m e]; simpl; intros H; try discriminate; try reflexivity.
  unfold SF64sqrt, SFsqrt.
  destruct (SFsqrt_core_binary prec emax (Z.pos m) e) as [[mz ez] lz] eqn:E.
  apply sf_signed_false_nonneg, binary_round_aux_signed.
  unfold SFsqrt_core_binary in E.
  destruct (Z.sqrtrem _) as [q r] eqn:Eq in E.
  injection E as <- _ _.
  change q with (fst (q, r)). rewrite <- Eq, Z.sqrtrem_sqrt. apply Z.sqrt_nonneg.
Qed.

Lemma SFdiv_core_nonneg (m1 m2 : positive) (e1 e2 : Z) :
  (0 <= fst (fst (SFdiv_core_binary prec emax (Z.pos m1) e1 (Z.pos m2) e2)))%Z.
Proof.
  unfold SFdiv_core_binary.
  set (s := (e1 - e2 - _)%Z).
  set (m' := match s with Z.pos _ => Z.shiftl (Z.pos m1) s | 0%Z => Z.pos m1 | Z.neg _ => 0%Z end).
  assert (Hm' : (0 <= m')%Z).
  { unfold m'. destruct s; try lia. apply Z.shiftl_nonneg. lia. }
  pose proof (Z.div_pos m' (Z.pos m2) Hm' (Pos2Z.pos_is_pos m2)) as Hq.
  unfold Z.div in Hq.
  destruct (Z.div_eucl m' (Z.pos m2)) as [q r]. simpl. exact Hq.
Qed.

Lemma SFdiv_nonneg (a b : spec_float) :
  sf_nonneg a = true -> sf_pos_finite b = true -> sf_nonneg (SF64div a b) = true.
Proof.
  destruct a as [sa|[]| |[] ma ea]; destruct b as [sb|sb| |[] mb eb];
    simpl; intros Ha Hb; try discriminate; try reflexivity.
  unfold SF64div, SFdiv.
  pose proof (SFdiv_core_nonneg ma mb ea eb) as Hq.
  destruct (SFdiv_core_binary prec emax (Z.pos ma) ea (Z.pos mb) eb) as [[mz ez] lz].
  apply sf_signed_false_nonneg. simpl in Hq.
  exact (binary_round_aux_signed false mz ez lz Hq).
Qed.

(** *** Rounding a positive mantissa above the least exponent *)

Lemma digits2_pos_size (p : positive) : digits2_pos p = Pos.size p.
Proof. induction p as [p IH|p IH|]; simpl; congruence. Qed.

Lemma Zdigits2_log2 (p : positive) :
  Zdigits2 (Z.pos p) = (Z.log2 (Z.pos p) + 1)%Z.
Proof.
  simpl. destruct p as [p|p|]; simpl Z.log2; try reflexivity;
    rewrite digits2_pos_size; simpl Pos.size; lia.
Qed.

Lemma shr_1_half (r : shr_record) :
  (0 <= shr_m r)%Z -> shr_m (shr_1 r) = (shr_m r / 2)%Z.
Proof.
  destruct r as [m b s]. simpl. intros Hm.
  destruct m as [|[p|p|]|p]; simpl shr_m; try lia.
  - reflexivity.
  - rewrite Pos2Z.inj_xI.
    apply (Z.div_unique_pos _ 2 (Z.pos p) 1); lia.
  - rewrite Pos2Z.inj_xO.
    apply (Z.div_unique_pos _ 2 (Z.pos p) 0); lia.
  - reflexivity.
Qed.

Lemma shr_1_lower (r : shr_record) (k : Z) :
  (0 <= k)%Z -> (2 ^ (1 + k) <= shr_m r)%Z -> (2 ^ k <= shr_m (shr_1 r))%Z.
Proof.
  intros Hk H.
  assert (Hp : (0 < 2 ^ k)%Z) by (apply Z.pow_pos_nonneg; lia).
  rewrite Z.pow_add_r, Z.pow_1_r in H by lia.
  rewrite shr_1_half by lia.
  apply Z.div_le_lower_bound; lia.
Qed.

Lemma iter_shr_1_lower (p : positive) :
  forall (r : shr_record) (k : Z),
    (0 <= k)%Z -> (2 ^ (Z.pos p + k) <= shr_m r)%Z ->
    (2 ^ k <= shr_m (iter_pos shr_1 p r))%Z.
Proof.
  induction p as [p IH|p IH|]; intros r k Hk H; simpl iter_pos.
  - apply IH; [exact Hk|]. apply IH; [lia|].
    apply shr_1_lower; [lia|].
    replace (1 + (Z.pos p + (Z.pos p + k)))%Z with (Z.pos p~1 + k)%Z by lia.
    exact H.
  - apply IH; [exact Hk|]. apply IH; [lia|].
    replace (Z.pos p + (Z.pos p + k))%Z with (Z.pos p~0 + k)%Z by lia.
    exact H.
  - apply shr_1_lower; assumption.
Qed.

Lemma shr_fexp_pos (m e : Z) (l : location) :
  (0 < m)%Z -> (emin <= e)%Z ->
  (0 < shr_m (fst (shr_fexp prec emax m e l)))%Z /\
  (emin <= snd (shr_fexp prec emax m e l))%Z.
Proof.
  intros Hm He. unfold shr_fexp, shr.
  destruct m as [|p|p]; try lia.
  rewrite Zdigits2_log2.
  pose proof (Z.log2_nonneg (Z.pos p)) as Hlog.
  pose proof (proj1 (Z.log2_spec (Z.pos p) Hm)) as Hspec.
  destruct (fexp prec emax (Z.log2 (Z.pos p) + 1 + e) - e)%Z as [|n|n] eqn:En;
    simpl fst; simpl snd; rewrite ?shr_record_of_loc_m; try (split; lia).
  assert (Hn : (Z.pos n <= Z.log2 (Z.pos p))%Z).
  { unfold fexp, SpecFloat.emin in En. unfold SpecFloat.emin in He.
    change prec with 53%Z in *. change emax with 1024%Z in *. lia. }
  split; [|lia].
  apply Z.lt_le_trans with (2 ^ 0)%Z; [reflexivity|].
  apply iter_shr_1_lower; [lia|].
  rewrite shr_record_of_loc_m, Z.add_0_r.
  apply Z.le_trans with (2 ^ Z.log2 (Z.pos p))%Z; [|exact Hspec].
  apply Z.pow_le_mono_r; lia.
Qed.

Lemma round_nearest_even_ge (m : Z) (l : location) :
  (m <= round_nearest_even m l)%Z.
Proof.
  destruct l as [|[]]; simpl; try lia. destruct (Z.even m); lia.
Qed.

Lemma binary_round_aux_signed_nz (sx : bool) (mx ex : Z) (lx : location) :
  (0 < mx)%Z -> (emin <= ex)%Z ->
  sf_signed_nz sx (binary_round_aux prec emax sx mx ex lx).
Proof.
  intros Hm He. unfold binary_round_aux.
  destruct (shr_fexp_pos mx ex lx Hm He) as [H1 H1e].
  destruct (shr_fexp prec emax mx ex lx) as [mrs' e']. simpl in H1, H1e.
  pose proof (round_nearest_even_ge (shr_m mrs') (loc_of_shr_record mrs')) as Hr.
  destruct (shr_fexp_pos (round_nearest_even (shr_m mrs') (loc_of_shr_record mrs'))
              e' loc_Exact ltac:(lia) H1e) as [H2 _].
  destruct (shr_fexp prec emax _ e' loc_Exact) as [mrs'' e'']. simpl in H2.
  destruct (shr_m mrs'') as [|p|p]; simpl; try lia.
  destruct (e'' <=? _)%Z; reflexivity.
Qed.

Lemma binary_round_signed_nz (sx : bool) (mx : positive) (ex : Z) :
  (emin <= ex)%Z -> sf_signed_nz sx (binary_round prec emax sx mx ex).
Proof.
  intros He. unfold binary_round, shl_align.
  destruct (fexp prec emax (Z.pos (digits2_pos mx) + ex) - ex)%Z eqn:En;
    apply binary_round_aux_signed_nz; try lia.
  unfold fexp in *. lia.
Qed.

(** The conversion of a positive 63-bit integer is a positive float. *)
Lemma of_uint63_pos (k : Z) :
  (1 <= k < 2 ^ 63)%Z ->
  sf_signed_nz false (Prim2SF (of_uint63 (Uint63.of_Z k))).
Proof.
  intros Hk. rewrite of_uint63_spec, Uint63.of_Z_spec.
  rewrite Z.mod_small by (change Uint63.wB with (2 ^ 63)%Z; lia).
  destruct k as [|p|p]; try lia. simpl binary_normalize.
  apply binary_round_signed_nz. unfold SpecFloat.emin.
  change prec with 53%Z. change emax with 1024%Z. lia.
Qed.

Lemma SFsub_self (s : bool) (m : positive) (e : Z) :
  SF64sub (S754_finite s m e) (S754_finite s m e) = S754_zero false.
Proof. unfold SF64sub, SFsub. rewrite Z.sub_diag. reflexivity. Qed.

Lemma SFdiv_zero_l (s : bool) (b : spec_float) :
  sf_signed_nz false b -> SF64div (S754_zero s) b = S754_zero s.
Proof.
  destruct b as [sb|sb| |sb mb eb]; simpl; intros H; try tauto; subst;
    rewrite xorb_false_r; reflexivity.
Qed.

Lemma sub_self_zero (x : float64) :
  sf_pos_finite (SFabs (Prim2SF x)) = true -> x - x = 0.
Proof.
  intros H. apply Prim2SF_inj. rewrite sub_spec, Prim2SF_zero.
  destruct (Prim2SF x) as [s|s| |s m e]; try discriminate. apply SFsub_self.
Qed.

Lemma zero_div_pos (y : float64) :
  sf_signed_nz false (Prim2SF y) -> 0 / y = 0.
Proof.
  intros H. apply Prim2SF_inj. rewrite div_spec, Prim2SF_zero.
  apply SFdiv_zero_l, H.
Qed.


Lemma mul_zero_r (x y : float64) :
  is_nan_or_inf x = false -> is_zero y = true -> is_zero (x * y) = true.
Proof.
  rewrite is_nan_or_inf_spec, !is_zero_spec, mul_spec.
  destruct (Prim2SF x), (Prim2SF y); simpl; try discriminate; reflexivity.
Qed.

(** Primitive views of the square-root and division facts. *)

Lemma sub_ltb_not_nan (x y : float64) : (x <? y) = true -> is_nan (x - y) = false.
Proof. rewrite ltb_spec, is_nan_spec, sub_spec. apply SFsub_ltb_not_nan. Qed.

Lemma sqrt_abs_nonneg (d : float64) :
  is_nan d = false -> is_nonneg (PrimFloat.sqrt (abs d)) = true.
Proof.
  rewrite is_nan_spec, is_nonneg_spec, sqrt_spec, abs_spec. apply SFsqrt_abs_nonneg.
Qed.

Lemma div_nonneg (x y : float64) :
  is_nonneg x = true -> is_pos_finite y = true -> is_nonneg (x / y) = true.
Proof.
  rewrite !is_nonneg_spec, is_pos_finite_spec, div_spec. apply SFdiv_nonneg.
Qed.

End IEEEFacts.

(** ** List and array lemmas *)

Module NpFacts.
Import IEEE IEEEFacts Np.

Lemma mapM_ok {A B : Type} (f : A -> result B) (g : A -> B) (l : list A) :
  (forall a, In a l -> f a = Ok (g a)) -> mapM f l = Ok (map g l).
Proof.
  induction l as [|a l IH]; intros H; simpl; [reflexivity|].
  rewrite (H a (or_introl eq_refl)). simpl.
  rewrite IH by (intros b Hb; apply H; right; exact Hb).
  reflexivity.
Qed.

Lemma zip_with_length {A B C : Type} (f : A -> B -> C) u v :
  length u = length v -> length (zip_with f u v) = length u.
Proof.
  intros H. unfold zip_with.
  rewrite length_map, length_combine, H. apply Nat.min_id.
Qed.

Lemma zip_with_nth (f : float64 -> float64 -> float64) u v j :
  length u = length v -> (j < length u)%nat ->
  nth j (zip_with f u v) 0 = f (nth j u 0) (nth j v 0).
Proof.
  intros Hl Hj. unfold zip_with.
  set (F := fun p : float64 * float64 => f (fst p) (snd p)).
  rewrite (nth_indep _ 0 (F (0, 0))).
  - rewrite (map_nth F), combine_nth by exact Hl. reflexivity.
  - rewrite length_map, length_combine, <- Hl, Nat.min_id. exact Hj.
Qed.

Lemma map_nth_in (f : float64 -> float64) l j :
  (j < length l)%nat -> nth j (map f l) 0 = f (nth j l 0).
Proof.
  intros Hj. rewrite (nth_indep _ 0 (f 0)) by (rewrite length_map; exact Hj).
  apply map_nth.
Qed.

Lemma zip_with_map {A B C D : Type} (f : B -> C -> D) (g : A -> B) (h : A -> C) L :
  zip_with f (map g L) (map h L) = map (fun j => f (g j) (h j)) L.
Proof.
  unfold zip_with. induction L as [|a L IH]; simpl; congruence.
Qed.

Lemma nth_map_seq {A : Type} (g : nat -> A) (d : A) m j :
  (j < m)%nat -> nth j (map g (seq 0 m)) d = g j.
Proof.
  intros Hj. rewrite (nth_indep _ d (g 0%nat)) by (rewrite length_map, length_seq; exact Hj).
  rewrite (map_nth g), seq_nth by exact Hj. reflexivity.
Qed.

(** *** Broadcasting on operands of equal shape *)

Lemma bcast_vec_map (f : float64 -> float64 -> float64) {A : Type}
  (g h : A -> float64) (L : list A) :
  bcast_vec f (map g L) (map h L) = Ok (map (fun j => f (g j) (h j)) L).
Proof.
  unfold bcast_vec. rewrite !length_map, Nat.eqb_refl, zip_with_map. reflexivity.
Qed.

Lemma bcast_vec_same_length (f : float64 -> float64 -> float64) u v :
  length u = length v -> bcast_vec f u v = Ok (zip_with f u v).
Proof.
  intros H. unfold bcast_vec. rewrite H, Nat.eqb_refl. reflexivity.
Qed.

Lemma binop_VV (f : float64 -> float64 -> float64) {A : Type}
  (g h : A -> float64) (L : list A) :
  binop f (Vec (map g L)) (Vec (map h L)) = Ok (Vec (map (fun j => f (g j) (h j)) L)).
Proof. simpl. rewrite bcast_vec_map. reflexivity. Qed.

Lemma binop_SV (f : float64 -> float64 -> float64) {A : Type}
  (x : float64) (h : A -> float64) (L : list A) :
  binop f (Scalar x) (Vec (map h L)) = Ok (Vec (map (fun j => f x (h j)) L)).
Proof. simpl. rewrite map_map. reflexivity. Qed.

Lemma unop_V (f : float64 -> float64) {A : Type} (g : A -> float64) (L : list A) :
  unop f (Vec (map g L)) = Vec (map (fun j => f (g j)) L).
Proof. simpl. rewrite map_map. reflexivity. Qed.

Lemma to_float_IVec {A : Type} (c : A -> Z) (L : list A) :
  to_float (IVec (map c L)) = Vec (map (fun j => Z2F (c j)) L).
Proof. simpl. rewrite map_map. reflexivity. Qed.

Lemma int_sub_IVec {A : Type} (c : A -> Z) (k : Z) (L : list A) :
  int_sub (IVec (map c L)) k = IVec (map (fun j => (c j - k)%Z) L).
Proof. simpl. rewrite map_map. reflexivity. Qed.

(** *** Columns of a rectangular array *)

Lemma rect_ncols n m rows : rect n m rows -> (1 <= n)%nat -> ncols rows = m.
Proof.
  intros [Hn Hr] H1. destruct rows as [|r rows]; simpl in *; [lia|].
  inversion Hr; assumption.
Qed.

Lemma rect_row n m rows r : rect n m rows -> In r rows -> length r = m.
Proof.
  intros [_ Hr] Hin. rewrite Forall_forall in Hr. apply Hr, Hin.
Qed.

Lemma rect_map n m (h : list float64 -> list float64) rows :
  rect n m rows -> (forall r, length r = m -> length (h r) = m) ->
  rect n m (map h rows).
Proof.
  intros [Hn Hr] Hh. split; [rewrite length_map; exact Hn|].
  rewrite Forall_forall in *. intros r' Hin.
  apply in_map_iff in Hin. destruct Hin as [r [<- Hin]]. apply Hh, Hr, Hin.
Qed.

Lemma transpose_rect n m rows :
  rect n m rows -> (1 <= n)%nat ->
  transpose rows = map (fun j => column j rows) (seq 0 m).
Proof.
  intros H H1. unfold transpose. rewrite (rect_ncols n m rows H H1). reflexivity.
Qed.

Lemma reduce_columns {B : Type} (g : list float64 -> B) n m rows :
  rect n m rows -> (1 <= n)%nat ->
  map g (transpose rows) = map (fun j => g (column j rows)) (seq 0 m).
Proof.
  intros H H1. rewrite (transpose_rect n m rows H H1), map_map. reflexivity.
Qed.

Lemma column_map_rows (h : list float64 -> list float64) rows j :
  column j (map h rows) = map (fun r => nth j (h r) 0) rows.
Proof. unfold column. rewrite map_map. reflexivity. Qed.

Lemma column_length j rows : length (column j rows) = length rows.
Proof. unfold column. apply length_map. Qed.

Lemma map_nth_seq_id {A : Type} (d : A) (l : list A) m :
  length l = m -> map (fun j => nth j l d) (seq 0 m) = l.
Proof.
  intros Hl. apply (nth_ext _ _ d d).
  - rewrite length_map, length_seq. symmetry; exact Hl.
  - intros j Hj. rewrite length_map, length_seq in Hj.
    exact (nth_map_seq (fun k => nth k l d) d m j Hj).
Qed.

Lemma column_nth n m rows i j :
  rect n m rows -> (i < n)%nat ->
  nth i (column j rows) 0 = nth j (nth i rows []) 0.
Proof.
  intros [Hn _] Hi. unfold column.
  set (F := fun r : list float64 => nth j r 0).
  rewrite (nth_indep _ 0 (F [])) by (rewrite length_map; lia).
  rewrite (map_nth F). reflexivity.
Qed.

Lemma rect_transpose n m rows :
  rect n m rows -> (1 <= n)%nat -> rect m n (transpose rows).
Proof.
  intros H H1. rewrite (transpose_rect n m rows H H1). split.
  - rewrite length_map, length_seq. reflexivity.
  - rewrite Forall_forall. intros c Hc.
    apply in_map_iff in Hc. destruct Hc as [j [<- _]].
    rewrite column_length. apply H.
Qed.

Lemma rect_nth_row n m rows i :
  rect n m rows -> (i < n)%nat -> length (nth i rows []) = m.
Proof.
  intros H Hi. apply (rect_row n m rows _ H).
  apply nth_In. destruct H as [Hn _]. lia.
Qed.

(** Transposing twice gives the array back. *)
Lemma transpose_involutive n m rows :
  rect n m rows -> (1 <= n)%nat -> (1 <= m)%nat ->
  transpose (transpose rows) = rows.
Proof.
  intros H Hn Hm.
  rewrite (transpose_rect m n (transpose rows) (rect_transpose n m rows H Hn) Hm).
  rewrite (transpose_rect n m rows H Hn).
  transitivity (map (fun i => nth i rows []) (seq 0 n)).
  2:{ apply map_nth_seq_id, H. }
  apply map_ext_in. intros i Hi. apply in_seq in Hi.
  unfold column at 1. rewrite map_map.
  transitivity (map (fun j => nth j (nth i rows []) 0) (seq 0 m)).
  - apply map_ext_in. intros j _. apply (column_nth n m rows i j H). lia.
  - apply map_nth_seq_id. apply (rect_nth_row n m); [exact H|lia].
Qed.

Lemma combine_map_same {A B C : Type} (f : A -> B) (g : A -> C) (L : list A) :
  combine (map f L) (map g L) = map (fun a => (f a, g a)) L.
Proof. induction L as [|a L IH]; simpl; congruence. Qed.

Lemma map_fst_combine {A B : Type} (u : list A) (v : list B) :
  length u = length v -> map fst (combine u v) = u.
Proof.
  revert v. induction u as [|a u IH]; intros [|b v] H; simpl in *; try congruence.
  rewrite IH by lia. reflexivity.
Qed.

Lemma map_snd_combine {A B : Type} (u : list A) (v : list B) :
  length u = length v -> map snd (combine u v) = v.
Proof.
  revert v. induction u as [|a u IH]; intros [|b v] H; simpl in *; try congruence.
  rewrite IH by lia. reflexivity.
Qed.

Lemma length_tl_removelast {A : Type} (l : list A) :
  length (tl l) = length (removelast l).
Proof.
  induction l as [|a l IH]; simpl; [reflexivity|].
  destruct l as [|b l]; simpl in *; [reflexivity|]. rewrite <- IH. reflexivity.
Qed.

End NpFacts.

(** ** From the array code to the scalar formulas *)

Module Lanes.
Import IEEE IEEEFacts Np Variability NpFacts.

Lemma compute_fvar_tail flux flux_err axis :
  compute_fvar flux flux_err axis =
  (flux_mean <- np_nanmean flux axis ;;
   n_points <- count_not_nan flux axis ;;
   dev <- np_sub flux flux_mean ;;
   dev_sum <- np_nansum (np_square dev) axis ;;
   s_square <- np_div dev_sum (to_float (int_sub n_points 1)) ;;
   err_sum <- np_nansum (np_square flux_err) axis ;;
   sig_square <- np_div err_sum (to_float n_points) ;;
   estimator_tail flux_mean n_points s_square sig_square).
Proof. reflexivity. Qed.

Lemma compute_fpp_tail flux flux_err axis :
  compute_fpp flux flux_err axis =
  (flux_mean <- np_nanmean flux axis ;;
   n_points <- count_not_nan flux axis ;;
   swapped <- swapaxes flux 0 axis ;;
   hi <- drop_first (np_T swapped) ;;
   lo <- drop_last (np_T swapped) ;;
   diffs <- np_sub hi lo ;;
   diff_sum <- np_nansum (np_square diffs) (-1) ;;
   s_square <- np_div diff_sum (to_float (int_sub (int_T n_points) 1)) ;;
   err_sum <- np_nansum (np_square flux_err) axis ;;
   sig_square <- np_div err_sum (to_float n_points) ;;
   estimator_tail flux_mean n_points (np_T s_square) sig_square).
Proof. reflexivity. Qed.

Lemma estimator_tail_scalar mu n s g :
  estimator_tail (Scalar mu) (IScalar n) (Scalar s) (Scalar g) =
  Ok (Scalar (fst (excess_variance mu n s g)),
      Scalar (snd (excess_variance mu n s g))).
Proof. reflexivity. Qed.

Lemma estimator_tail_vec {A : Type} (mu : A -> float64) (n : A -> Z)
  (s g : A -> float64) (L : list A) :
  estimator_tail (Vec (map mu L)) (IVec (map n L)) (Vec (map s L)) (Vec (map g L)) =
  Ok (Vec (map (fun j => fst (excess_variance (mu j) (n j) (s j) (g j))) L),
      Vec (map (fun j => snd (excess_variance (mu j) (n j) (s j) (g j))) L)).
Proof.
  unfold estimator_tail, np_sub, np_div, np_mul, np_add, np_sqrt, np_abs, np_square.
  rewrite to_float_IVec.
  repeat (first [ rewrite binop_VV | rewrite binop_SV | rewrite unop_V ];
          cbn [bind]).
  reflexivity.
Qed.

(** *** Reductions and broadcasting along the leading axis *)

Lemma reduce_axis0 (g : list float64 -> float64) n m rows :
  rect n m rows -> (1 <= n)%nat ->
  reduce Scalar Vec g (Mat rows) 0 =
  Ok (Vec (map (fun j => g (column j rows)) (seq 0 m))).
Proof.
  intros H H1. cbn. rewrite (reduce_columns g n m rows H H1). reflexivity.
Qed.

Lemma count_axis0 n m rows :
  rect n m rows -> (1 <= n)%nat ->
  count_not_nan (Mat rows) 0 =
  Ok (IVec (map (fun j => count1 (column j rows)) (seq 0 m))).
Proof.
  intros H H1. cbn. rewrite (reduce_columns count1 n m rows H H1). reflexivity.
Qed.

Lemma column_map_map (f : float64 -> float64) n m rows j :
  rect n m rows -> (j < m)%nat ->
  column j (map (map f) rows) = map f (column j rows).
Proof.
  intros H Hj. unfold column. rewrite !map_map.
  apply map_ext_in. intros r Hr. apply map_nth_in.
  rewrite (rect_row n m rows r H Hr). exact Hj.
Qed.

Lemma sub_rows_vec n m rows v :
  rect n m rows -> length v = m ->
  np_sub (Mat rows) (Vec v) =
  Ok (Mat (map (fun r => zip_with PrimFloat.sub r v) rows)).
Proof.
  intros H Hv. unfold np_sub. cbn [binop].
  rewrite (mapM_ok _ (fun r => zip_with PrimFloat.sub r v)); [reflexivity|].
  intros r Hr. apply bcast_vec_same_length.
  rewrite (rect_row n m rows r H Hr). symmetry; exact Hv.
Qed.

Lemma column_dev n m rows (mu : nat -> float64) j :
  rect n m rows -> (j < m)%nat ->
  column j (map (map sq)
              (map (fun r => zip_with PrimFloat.sub r (map mu (seq 0 m))) rows)) =
  map (fun x => sq (x - mu j)) (column j rows).
Proof.
  intros H Hj. unfold column. rewrite !map_map.
  apply map_ext_in. intros r Hr.
  pose proof (rect_row n m rows r H Hr) as Hlen.
  assert (Hv : length r = length (map mu (seq 0 m)))
    by (rewrite length_map, length_seq; exact Hlen).
  rewrite map_nth_in by (rewrite zip_with_length by exact Hv; lia).
  rewrite zip_with_nth by (try exact Hv; lia).
  rewrite nth_map_seq by exact Hj. reflexivity.
Qed.

(** Along the leading axis of a 1-D series the code is the scalar formula. *)
Lemma compute_fvar_vec (flux flux_err : list float64) :
  compute_fvar (Vec flux) (Vec flux_err) 0 =
  Ok (Scalar (fst (fvar_lane flux flux_err)),
      Scalar (snd (fvar_lane flux flux_err))).
Proof.
  rewrite compute_fvar_tail. cbn -[estimator_tail nanmean1 nansum1 count1 Z2F].
  rewrite estimator_tail_scalar.
  unfold fvar_lane, fvar_with, s_square_fvar, sig_square_with.
  rewrite !map_map. reflexivity.
Qed.

(** Along the leading axis of a 2-D array the code applies the scalar
    formula to every column. *)
Lemma compute_fvar_mat n m (flux flux_err : list (list float64)) :
  rect n m flux -> rect n m flux_err -> (1 <= n)%nat ->
  compute_fvar (Mat flux) (Mat flux_err) 0 =
  Ok (Vec (map (fun j => fst (fvar_lane (column j flux) (column j flux_err)))
               (seq 0 m)),
      Vec (map (fun j => snd (fvar_lane (column j flux) (column j flux_err)))
               (seq 0 m))).
Proof.
  intros HF HE H1. rewrite compute_fvar_tail.
  unfold np_nanmean, np_nansum.
  rewrite (reduce_axis0 nanmean1 n m flux HF H1). cbn [bind].
  rewrite (count_axis0 n m flux HF H1). cbn [bind].
  rewrite (sub_rows_vec n m flux) by
    (try exact HF; rewrite length_map, length_seq; reflexivity).
  cbn [bind np_square unop].
  rewrite (reduce_axis0 nansum1 n m).
  2:{ apply rect_map; [apply rect_map; [exact HF|]|].
      - intros r Hr. rewrite zip_with_length; rewrite ?length_map, ?length_seq; auto.
      - intros r Hr. rewrite length_map. exact Hr. }
  2: exact H1.
  cbn [bind].
  rewrite (map_ext_in _ (fun j => nansum1 (map (fun x => sq (x - nanmean1 (column j flux)))
                                               (column j flux)))).
  2:{ intros j Hj. apply in_seq in Hj.
      rewrite (column_dev n m flux (fun j => nanmean1 (column j flux)) j HF) by lia.
      reflexivity. }
  rewrite int_sub_IVec, !to_float_IVec.
  unfold np_div at 1. rewrite binop_VV. cbn [bind].
  rewrite (reduce_axis0 nansum1 n m).
  2:{ apply rect_map; [exact HE|]. intros r Hr. rewrite length_map. exact Hr. }
  2: exact H1.
  cbn [bind].
  rewrite (map_ext_in _ (fun j => nansum1 (map sq (column j flux_err)))).
  2:{ intros j Hj. apply in_seq in Hj.
      rewrite (column_map_map sq n m flux_err j HE) by lia. reflexivity. }
  unfold np_div at 1. rewrite binop_VV. cbn [bind].
  rewrite (estimator_tail_vec
             (fun j => nanmean1 (column j flux))
             (fun j => count1 (column j flux))).
  reflexivity.
Qed.

(** *** The point-to-point estimator, lane by lane *)

Lemma compute_fpp_vec (flux flux_err : list float64) :
  compute_fpp (Vec flux) (Vec flux_err) 0 =
  Ok (Scalar (fst (fpp_lane flux flux_err)),
      Scalar (snd (fpp_lane flux flux_err))).
Proof.
  rewrite compute_fpp_tail.
  cbn -[estimator_tail nanmean1 nansum1 count1 Z2F bcast_vec].
  rewrite bcast_vec_same_length by apply length_tl_removelast.
  cbn -[estimator_tail nanmean1 nansum1 count1 Z2F].
  rewrite estimator_tail_scalar. reflexivity.
Qed.

(** Once the reduction axis is the trailing one, every row is a lane. *)
Lemma fpp_from_lanes {A : Type} (f e : A -> list float64) (L : list A) :
  (hi <- drop_first (Mat (map f L)) ;;
   lo <- drop_last (Mat (map f L)) ;;
   diffs <- np_sub hi lo ;;
   diff_sum <- np_nansum (np_square diffs) (-1) ;;
   s_square <- np_div diff_sum
                 (to_float (int_sub (int_T (IVec (map (fun j => count1 (f j)) L))) 1)) ;;
   sig_square <- np_div (Vec (map (fun j => nansum1 (map sq (e j))) L))
                   (to_float (IVec (map (fun j => count1 (f j)) L))) ;;
   estimator_tail (Vec (map (fun j => nanmean1 (f j)) L))
     (IVec (map (fun j => count1 (f j)) L)) (np_T s_square) sig_square) =
  Ok (Vec (map (fun j => fst (fpp_lane (f j) (e j))) L),
      Vec (map (fun j => snd (fpp_lane (f j) (e j))) L)).
Proof.
  cbn [drop_first drop_last bind]. rewrite !map_map.
  unfold np_sub at 1. cbn [binop].
  unfold bcast_mat. rewrite !length_map, Nat.eqb_refl, combine_map_same.
  rewrite (mapM_ok _ (fun p => zip_with PrimFloat.sub (fst p) (snd p))).
  2:{ intros p Hp. apply in_map_iff in Hp. destruct Hp as [j [<- _]].
      apply bcast_vec_same_length, length_tl_removelast. }
  cbn [bind np_square unop]. rewrite !map_map.
  cbn -[estimator_tail nanmean1 nansum1 count1 Z2F bcast_vec zip_with].
  rewrite !map_map.
  rewrite bcast_vec_map. cbn [bind].
  rewrite bcast_vec_map. cbn [bind np_T].
  rewrite (estimator_tail_vec
             (fun j => nanmean1 (f j)) (fun j => count1 (f j))).
  reflexivity.
Qed.

(** Along the leading axis of a 2-D array: the formula of every column. *)
Lemma compute_fpp_mat n m (flux flux_err : list (list float64)) :
  rect n m flux -> rect n m flux_err -> (1 <= n)%nat ->
  compute_fpp (Mat flux) (Mat flux_err) 0 =
  Ok (Vec (map (fun j => fst (fpp_lane (column j flux) (column j flux_err)))
               (seq 0 m)),
      Vec (map (fun j => snd (fpp_lane (column j flux) (column j flux_err)))
               (seq 0 m))).
Proof.
  intros HF HE H1. rewrite compute_fpp_tail.
  unfold np_nanmean, np_nansum.
  rewrite (reduce_axis0 nanmean1 n m flux HF H1). cbn [bind].
  rewrite (count_axis0 n m flux HF H1). cbn [bind].
  cbn [swapaxes normalize_axis Z.leb Z.ltb Z.opp Z.compare andb bind Z.eqb np_T].
  rewrite (transpose_rect n m flux HF H1).
  cbn [np_square unop].
  rewrite (reduce_axis0 nansum1 n m (map (map sq) flux_err)).
  2:{ apply rect_map; [exact HE|]. intros r Hr. rewrite length_map. exact Hr. }
  2: exact H1.
  rewrite (map_ext_in _ (fun j => nansum1 (map sq (column j flux_err)))).
  2:{ intros j Hj. apply in_seq in Hj.
      rewrite (column_map_map sq n m flux_err j HE) by lia. reflexivity. }
  exact (fpp_from_lanes (fun j => column j flux) (fun j => column j flux_err)
           (seq 0 m)).
Qed.

(** Along the trailing axis of a 2-D array: the formula of every row. *)
Lemma compute_fpp_rows n m (flux flux_err : list (list float64)) :
  rect n m flux -> rect n m flux_err -> (1 <= n)%nat -> (1 <= m)%nat ->
  compute_fpp (Mat flux) (Mat flux_err) 1 =
  Ok (Vec (map (fun p => fst (fpp_lane (fst p) (snd p))) (combine flux flux_err)),
      Vec (map (fun p => snd (fpp_lane (fst p) (snd p))) (combine flux flux_err))).
Proof.
  intros HF HE Hn Hm. rewrite compute_fpp_tail.
  assert (Hlen : length flux = length flux_err)
    by (destruct HF as [-> _]; destruct HE as [-> _]; reflexivity).
  cbn [np_nanmean np_nansum reduce count_not_nan swapaxes bind np_square unop].
  change (normalize_axis 1 2) with (@Ok Z 1%Z).
  change (normalize_axis 0 2) with (@Ok Z 0%Z).
  cbn [bind Z.eqb np_T].
  rewrite (transpose_involutive n m flux HF Hn Hm).
  rewrite map_map.
  pose proof (map_fst_combine flux flux_err Hlen) as EF.
  pose proof (map_snd_combine flux flux_err Hlen) as EE.
  set (L := combine flux flux_err) in *.
  rewrite <- EF, <- EE, !map_map.
  exact (fpp_from_lanes fst snd L).
Qed.

(** [compute_fpp] along axis 0 of an array is [compute_fpp] along axis 1
    of its transpose: the reorientation of the source handles both. *)
Lemma compute_fpp_transpose n m (flux flux_err : list (list float64)) :
  rect n m flux -> rect n m flux_err -> (1 <= n)%nat -> (1 <= m)%nat ->
  compute_fpp (Mat flux) (Mat flux_err) 0 =
  compute_fpp (Mat (transpose flux)) (Mat (transpose flux_err)) 1.
Proof.
  intros HF HE Hn Hm.
  rewrite (compute_fpp_mat n m flux flux_err HF HE Hn).
  rewrite (compute_fpp_rows m n (transpose flux) (transpose flux_err)
             (rect_transpose n m flux HF Hn)
             (rect_transpose n m flux_err HE Hn) Hm Hn).
  rewrite (transpose_rect n m flux HF Hn), (transpose_rect n m flux_err HE Hn).
  rewrite combine_map_same, !map_map. reflexivity.
Qed.

End Lanes.

(** ** NaN-aware sums *)

Module SumFacts.
Import IEEE IEEEFacts Np Variability.

Lemma nan_to_zero_not_nan (x : float64) : is_nan (nan_to_zero x) = false.
Proof. unfold nan_to_zero. destruct (is_nan x) eqn:E; [reflexivity|exact E]. Qed.

(** Squaring commutes with the replacement of NaN by zero. *)
Lemma nan_to_zero_sq (x : float64) : nan_to_zero (sq x) = sq (nan_to_zero x).
Proof.
  unfold nan_to_zero at 2. destruct (is_nan x) eqn:E.
  - unfold nan_to_zero, sq. rewrite (nan_mul_nan x E). reflexivity.
  - unfold nan_to_zero, sq. rewrite (nonneg_not_nan _ (sq_nonneg x E)). reflexivity.
Qed.

Lemma nan_to_zero_sq_nonneg (x : float64) : is_nonneg (nan_to_zero (sq x)) = true.
Proof. rewrite nan_to_zero_sq. apply sq_nonneg, nan_to_zero_not_nan. Qed.

Lemma fold_add_nonneg (l : list float64) (a : float64) :
  Forall (fun x => is_nonneg x = true) l -> is_nonneg a = true ->
  is_nonneg (fold_left PrimFloat.add l a) = true.
Proof.
  revert a. induction l as [|x l IH]; intros a Hl Ha; simpl; [exact Ha|].
  inversion Hl; subst. apply IH; [assumption|]. apply add_nonneg; assumption.
Qed.

(** A NaN-aware sum of squares is never NaN and never negative. *)
Lemma nansum_sq_nonneg (l : list float64) : is_nonneg (nansum1 (map sq l)) = true.
Proof.
  unfold nansum1, sum1. apply fold_add_nonneg; [|reflexivity].
  rewrite Forall_forall. intros y Hy.
  apply in_map_iff in Hy. destruct Hy as [z [<- Hz]].
  apply in_map_iff in Hz. destruct Hz as [x [<- _]].
  apply nan_to_zero_sq_nonneg.
Qed.

(** The NaN-aware sum of [l ** 2] is the plain sum once the NaN entries
    of [l] are set to zero. *)
Lemma nansum_sq_replace (l : list float64) :
  nansum1 (map sq l) = sum1 (map sq (map nan_to_zero l)).
Proof.
  unfold nansum1. f_equal. rewrite !map_map.
  apply map_ext. intros x. apply nan_to_zero_sq.
Qed.

(** A plain sum is NaN as soon as one term is. *)
Lemma fold_add_nan_acc (l : list float64) (a : float64) :
  is_nan a = true -> is_nan (fold_left PrimFloat.add l a) = true.
Proof.
  revert a. induction l as [|x l IH]; intros a Ha; simpl; [exact Ha|].
  apply IH, add_nan_l, Ha.
Qed.

Lemma sum1_nan (l : list float64) :
  existsb is_nan l = true -> is_nan (sum1 l) = true.
Proof.
  unfold sum1. generalize 0. induction l as [|x l IH]; intros a H; simpl in *.
  - discriminate.
  - destruct (is_nan x) eqn:E.
    + apply fold_add_nan_acc, add_nan_r, E.
    + apply IH, H.
Qed.

(** Setting NaN entries to zero does not change the count of non-NaN
    flux entries used as divisor, which depends on [flux] alone. *)
Lemma sig_square_replace (flux flux_err : list float64) :
  sig_square_with nansum1 flux flux_err =
  sig_square_with sum1 flux (map nan_to_zero flux_err).
Proof. unfold sig_square_with. rewrite nansum_sq_replace. reflexivity. Qed.

End SumFacts.

(** ** Degenerate and noise-dominated series *)

Module LaneFacts.
Import IEEE IEEEFacts Np Variability SumFacts.

Lemma Z2F_zero : Z2F 0 = 0.
Proof. reflexivity. Qed.

Lemma Z2F_pos (k : Z) :
  (1 <= k < 2 ^ 63)%Z -> sf_signed_nz false (Prim2SF (Z2F k)).
Proof.
  intros Hk. unfold Z2F.
  destruct (k <? 0)%Z eqn:E; [apply Z.ltb_lt in E; lia|].
  apply of_uint63_pos, Hk.
Qed.

Lemma fold_add_zeros (n : nat) : fold_left PrimFloat.add (repeat 0 n) 0 = 0.
Proof. induction n as [|n IH]; simpl; [reflexivity|exact IH]. Qed.

Lemma nansum1_zeros (n : nat) : nansum1 (repeat 0 n) = 0.
Proof. unfold nansum1, sum1. rewrite map_repeat. apply fold_add_zeros. Qed.

Lemma count1_all_nan (l : list float64) :
  count1 l = 0%Z -> map nan_to_zero l = repeat 0 (length l).
Proof.
  unfold count1. induction l as [|x l IH]; simpl; intros H; [reflexivity|].
  unfold nan_to_zero at 1. destruct (is_nan x); simpl in H.
  - rewrite IH by exact H. reflexivity.
  - lia.
Qed.

(** With no valid entry the NaN-aware mean is [0 / 0]. *)
Lemma nanmean1_empty (l : list float64) :
  count1 l = 0%Z -> is_nan (nanmean1 l) = true.
Proof.
  intros H. unfold nanmean1, nansum1, sum1.
  rewrite (count1_all_nan l H), fold_add_zeros, H. reflexivity.
Qed.

Lemma count1_repeat (c : float64) (n : nat) :
  is_nan c = false -> count1 (repeat c n) = Z.of_nat n.
Proof.
  intros Hc. unfold count1. f_equal.
  induction n as [|n IH]; simpl; [reflexivity|]. rewrite Hc. simpl. congruence.
Qed.

(** *** The estimator on degenerate intermediate values *)

Lemma fvar_zero_mean mu n s g :
  is_zero mu = true -> is_nan_or_inf (fst (excess_variance mu n s g)) = true.
Proof. intros H. apply div_zero_nan_or_inf, H. Qed.

Lemma fvar_nan_mean mu n s g :
  is_nan mu = true -> is_nan (fst (excess_variance mu n s g)) = true.
Proof. intros H. apply div_nan_r, H. Qed.

Lemma fvar_nan_or_inf_variance mu n s g :
  is_nan_or_inf s = true -> is_nan_or_inf (fst (excess_variance mu n s g)) = true.
Proof.
  intros H. apply div_nan_or_inf_l, sqrt_nan_or_inf, abs_nan_or_inf, sub_nan_or_inf_l, H.
Qed.

Lemma fvar_err_zero_fvar mu n s g :
  is_zero (fst (excess_variance mu n s g)) = true ->
  is_nan_or_inf (snd (excess_variance mu n s g)) = true.
Proof.
  intros H. apply div_zero_nan_or_inf, mul_zero_r; [reflexivity|exact H].
Qed.

(** With one valid entry the sample variance divides by [1 - 1]. *)
Lemma s_square_single (flux : list float64) :
  count1 flux = 1%Z -> is_nan_or_inf (s_square_fvar flux) = true.
Proof.
  intros H. unfold s_square_fvar. rewrite H.
  apply div_zero_nan_or_inf. reflexivity.
Qed.

(** Every degenerate case of one series ends in NaN or an infinity. *)
Lemma fvar_lane_degenerate (flux flux_err : list float64) :
  (is_zero (nanmean1 flux) = true ->
   is_nan_or_inf (fst (fvar_lane flux flux_err)) = true) /\
  (count1 flux = 0%Z -> is_nan (fst (fvar_lane flux flux_err)) = true) /\
  (count1 flux = 1%Z -> is_nan_or_inf (fst (fvar_lane flux flux_err)) = true) /\
  (is_zero (fst (fvar_lane flux flux_err)) = true ->
   is_nan_or_inf (snd (fvar_lane flux flux_err)) = true).
Proof.
  unfold fvar_lane, fvar_with. repeat split.
  - apply fvar_zero_mean.
  - intros H. apply fvar_nan_mean, nanmean1_empty, H.
  - intros H. apply fvar_nan_or_inf_variance, s_square_single, H.
  - apply fvar_err_zero_fvar.
Qed.

(** *** Noise above the sample variance *)

Lemma fvar_nonneg mu n s g :
  (s <? g) = true -> is_pos_finite mu = true ->
  is_nonneg (fst (excess_variance mu n s g)) = true.
Proof.
  intros Hlt Hmu. unfold excess_variance. cbn [fst].
  apply div_nonneg; [|exact Hmu].
  apply sqrt_abs_nonneg, sub_ltb_not_nan, Hlt.
Qed.

(** *** A constant series *)


End LaneFacts.

(** ** The chi-square test *)

Module Chisq.
Import IEEE IEEEFacts Np Variability SumFacts.

Section WithSurvivalFunction.

Variable chi2_sf : float64 -> Z -> float64.

Lemma compute_chisq_vec (flux : list float64) :
  compute_chisq chi2_sf (Vec flux) =
  Ok (Scalar (chisq_stat flux (mean1 flux)),
      Scalar (chi2_sf (chisq_stat flux (mean1 flux))
                      (Z.of_nat (length flux) - 1))).
Proof.
  unfold compute_chisq, chisquare, chisq_stat.
  cbn -[mean1 sum1 Z.of_nat Z.sub]. rewrite !map_map, !length_map. reflexivity.
Qed.

Lemma mean1_nan (flux : list float64) :
  existsb is_nan flux = true -> is_nan (mean1 flux) = true.
Proof. intros H. apply div_nan_l, sum1_nan, H. Qed.

Lemma existsb_map_all {A : Type} (p : float64 -> bool) (f : A -> float64) (l : list A) :
  (forall a, p (f a) = true) -> l <> [] -> existsb p (map f l) = true.
Proof.
  intros Hp Hl. destruct l as [|a l]; [congruence|]. simpl. rewrite Hp. reflexivity.
Qed.

(** A NaN expected value makes every term, and the statistic, NaN. *)
Lemma chisq_stat_nan (yobs : list float64) (yexp : float64) :
  yobs <> [] -> is_nan yexp = true -> is_nan (chisq_stat yobs yexp) = true.
Proof.
  intros Hne Hnan. unfold chisq_stat. apply sum1_nan.
  apply existsb_map_all; [|exact Hne]. intros x. apply div_nan_r, Hnan.
Qed.

(** On four entries 5 the plain mean is 5 and the statistic is exactly
    zero; the p-value is the survival function at 0 for 3 degrees of
    freedom. *)
Lemma compute_chisq_constant :
  mean1 [5; 5; 5; 5] = 5 /\
  compute_chisq chi2_sf (Vec [5; 5; 5; 5]) = Ok (Scalar 0, Scalar (chi2_sf 0 3%Z)).
Proof.
  split; [reflexivity|]. rewrite compute_chisq_vec.
  change (chisq_stat [5; 5; 5; 5] (mean1 [5; 5; 5; 5])) with 0. reflexivity.
Qed.

(** With one outlier the expected value is the mean of all four entries,
    16.25, and the statistic is large. *)
Lemma compute_chisq_outlier :
  mean1 [5; 5; 5; 50] = 16.25 /\
  compute_chisq chi2_sf (Vec [5; 5; 5; 50]) =
  Ok (Scalar 93.461538461538453, Scalar (chi2_sf 93.461538461538453 3%Z)).
Proof.
  split; [reflexivity|]. rewrite compute_chisq_vec.
  change (chisq_stat [5; 5; 5; 50] (mean1 [5; 5; 5; 50]))
    with 93.461538461538453.
  reflexivity.
Qed.

(** A NaN anywhere in a 1-D series reaches the expected mean and the
    statistic: the call returns, the statistic is NaN, and the p-value
    is whatever the survival function returns at that NaN. *)
Lemma compute_chisq_nan_statistic (flux : list float64) :
  existsb is_nan flux = true ->
  exists chi2 pval,
    compute_chisq chi2_sf (Vec flux) = Ok (Scalar chi2, Scalar pval) /\
    is_nan (mean1 flux) = true /\
    is_nan chi2 = true /\
    pval = chi2_sf chi2 (Z.of_nat (length flux) - 1)%Z.
Proof.
  intros Hnan.
  assert (Hne : flux <> []) by (destruct flux; [discriminate|congruence]).
  pose proof (mean1_nan flux Hnan) as Hmean.
  pose proof (chisq_stat_nan flux (mean1 flux) Hne Hmean) as Hstat.
  eexists; eexists. split; [apply compute_chisq_vec|].
  split; [exact Hmean|]. split; [exact Hstat|reflexivity].
Qed.

End WithSurvivalFunction.

End Chisq.

(** ** The divisor of the point-to-point variance *)

Module FppCount.
Import IEEE IEEEFacts Np Variability SumFacts.

Lemma count1_cons (x : float64) (l : list float64) :
  count1 (x :: l) = ((if valid x then 1 else 0) + count1 l)%Z.
Proof.
  unfold count1, valid. simpl. destruct (negb (is_nan x)); simpl length; lia.
Qed.

(** Every valid entry either extends a run, or starts one. *)
Lemma count_pairs_runs (l : list float64) (prev : bool) :
  count1 l = Z.of_nat (pairs_from prev l + runs_from prev l).
Proof.
  revert prev. induction l as [|x l IH]; intros prev; [reflexivity|].
  rewrite count1_cons, (IH (valid x)). cbn [pairs_from runs_from].
  destruct (valid x), prev; cbn [andb negb]; lia.
Qed.

Lemma diffs_cons (x y : float64) (l : list float64) :
  diffs (x :: y :: l) = (y - x) :: diffs (y :: l).
Proof. reflexivity. Qed.

Lemma sub_nan_l (x y : float64) : is_nan x = true -> is_nan (x - y) = true.
Proof.
  rewrite !is_nan_spec, sub_spec. destruct (Prim2SF x); simpl; congruence.
Qed.

Lemma sub_finite_not_nan (x y : float64) :
  is_finite x = true -> is_finite y = true -> is_nan (x - y) = false.
Proof.
  unfold is_finite. rewrite !is_nan_spec, !is_infinity_spec, sub_spec.
  destruct (Prim2SF x) as [sx|sx| |sx mx ex]; destruct (Prim2SF y) as [sy|sy| |sy my ey];
    simpl; intros Hx Hy; try discriminate; try reflexivity.
  - destruct sx, sy; reflexivity.
  - apply binary_normalize_not_nan.
Qed.

Lemma valid_finite (x : float64) :
  is_infinity x = false -> valid x = true -> is_finite x = true.
Proof.
  unfold valid, is_finite. intros Hi Hv. rewrite Hi.
  destruct (is_nan x); [discriminate|reflexivity].
Qed.

(** A squared difference is valid exactly when both entries are. *)
Lemma sq_diff_valid (x y : float64) :
  is_infinity x = false -> is_infinity y = false ->
  valid (sq (y - x)) = valid y && valid x.
Proof.
  intros Hx Hy. unfold valid at 1, sq.
  destruct (valid y) eqn:Vy; [destruct (valid x) eqn:Vx|]; simpl.
  - rewrite (nonneg_not_nan _ (sq_nonneg _ (sub_finite_not_nan y x
               (valid_finite y Hy Vy) (valid_finite x Hx Vx)))). reflexivity.
  - unfold valid in Vx. apply negb_false_iff in Vx.
    rewrite (nan_mul_nan _ (sub_nan_r y x Vx)). reflexivity.
  - unfold valid in Vy. apply negb_false_iff in Vy.
    rewrite (nan_mul_nan _ (sub_nan_l y x Vy)). reflexivity.
Qed.

Lemma summed_terms_pairs (x : float64) (l : list float64) :
  no_infinity (x :: l) ->
  summed_terms (x :: l) = Z.of_nat (pairs_from (valid x) l).
Proof.
  unfold summed_terms, sq_diffs.
  revert x. induction l as [|y l IH]; intros x H; [reflexivity|].
  inversion H as [|? ? Hx Hyl]; subst. inversion Hyl as [|? ? Hy Hl]; subst.
  rewrite diffs_cons. cbn [map]. rewrite count1_cons, (IH y Hyl).
  rewrite (sq_diff_valid x y Hx Hy). cbn [pairs_from].
  destruct (valid y && valid x); lia.
Qed.

(** The divisor against the terms summed. *)
Lemma fpp_divisor_terms (flux : list float64) :
  no_infinity flux ->
  fpp_divisor flux = (summed_terms flux + Z.of_nat (runs flux) - 1)%Z.
Proof.
  intros H. unfold fpp_divisor, runs.
  destruct flux as [|x l]; [reflexivity|].
  rewrite (summed_terms_pairs x l H), (count_pairs_runs (x :: l) false).
  cbn [pairs_from runs_from]. rewrite andb_false_r.
  destruct (valid x); cbn [andb negb]; lia.
Qed.

(** Runs of a block of valid entries, and of two blocks around a gap. *)
Lemma runs_from_all_valid (l : list float64) (prev : bool) :
  Forall (fun x => valid x = true) l ->
  runs_from prev l =
  if prev then 0%nat else match l with [] => 0%nat | _ => 1%nat end.
Proof.
  revert prev. induction l as [|x l IH]; intros prev H; simpl.
  - destruct prev; reflexivity.
  - inversion H as [|? ? Hx Hl]; subst. rewrite Hx, (IH true Hl). simpl.
    destruct prev; reflexivity.
Qed.

Lemma runs_from_app (l1 l2 : list float64) (prev : bool) :
  runs_from prev (l1 ++ l2) =
  (runs_from prev l1 + runs_from (last (map valid l1) prev) l2)%nat.
Proof.
  revert prev. induction l1 as [|x l1 IH]; intros prev; [reflexivity|].
  cbn [app runs_from map]. rewrite (IH (valid x)).
  replace (last (valid x :: map valid l1) prev) with (last (map valid l1) (valid x)).
  - lia.
  - clear. generalize (valid x). intros b.
    destruct (map valid l1) as [|v vs]; [reflexivity|].
    simpl. revert v. induction vs as [|w vs IHv]; intros v; [reflexivity|].
    simpl in *. apply IHv.
Qed.

Lemma runs_single_gap (l1 l2 : list float64) (g : float64) :
  l1 <> [] -> l2 <> [] -> valid g = false ->
  Forall (fun x => valid x = true) l1 -> Forall (fun x => valid x = true) l2 ->
  runs (l1 ++ g :: l2) = 2%nat.
Proof.
  intros H1 H2 Hg V1 V2. unfold runs.
  rewrite runs_from_app, (runs_from_all_valid l1 false V1).
  cbn [runs_from]. rewrite Hg. cbn [andb Nat.add].
  rewrite (runs_from_all_valid l2 false V2).
  destruct l1; [congruence|]. destruct l2; [congruence|]. reflexivity.
Qed.

End FppCount.

(** ** Properties of the three estimators *)

Module Claims.
Import IEEE IEEEFacts Np Variability NpFacts Lanes SumFacts LaneFacts Chisq FppCount.

(** C1 (as amended). Reduced along the leading axis, [compute_fvar]
    returns the pair given by the documented formula, series by series:
    [fvar = sqrt(|S2 - sig2|) / flux_mean] and
    [fvar_err = sqrt(a*a + b*b) / (2*fvar)], where the sum behind [sig2]
    is NaN-aware like the one behind [S2]. The first part is the 1-D
    case; the second is the 2-D case, one result per column. *)
Theorem C1_compute_fvar_formula :
  (forall flux flux_err : list float64,
      compute_fvar (Vec flux) (Vec flux_err) 0 =
      Ok (Scalar (fst (fvar_lane flux flux_err)),
          Scalar (snd (fvar_lane flux flux_err)))) /\
  (forall (n m : nat) (flux flux_err : list (list float64)),
      rect n m flux -> rect n m flux_err -> (1 <= n)%nat ->
      compute_fvar (Mat flux) (Mat flux_err) 0 =
      Ok (Vec (map (fun j => fst (fvar_lane (column j flux) (column j flux_err)))
                   (seq 0 m)),
          Vec (map (fun j => snd (fvar_lane (column j flux) (column j flux_err)))
                   (seq 0 m)))).
Proof.
  split.
  - exact compute_fvar_vec.
  - exact compute_fvar_mat.
Qed.

(** The 2-D part of C1 at a 2 by 2 array. *)
Lemma C1_compute_fvar_formula_witness :
  compute_fvar (Mat [[1; 2]; [3; 5]]) (Mat [[1; 1]; [1; 1]]) 0 =
  Ok (Vec (map (fun j => fst (fvar_lane (column j [[1; 2]; [3; 5]])
                                        (column j [[1; 1]; [1; 1]])))
               (seq 0 2)),
      Vec (map (fun j => snd (fvar_lane (column j [[1; 2]; [3; 5]])
                                        (column j [[1; 1]; [1; 1]])))
               (seq 0 2))).
Proof.
  apply (proj2 C1_compute_fvar_formula 2%nat 2%nat).
  - split; [reflexivity|repeat constructor].
  - split; [reflexivity|repeat constructor].
  - lia.
Defined.

(** C1 as stated fails twice. With a NaN in [flux_err] the code returns
    a number where the formula with a plain sum over [flux_err ** 2]
    gives NaN; and along axis 1 of a 3 by 2 array the call raises
    instead of returning a pair. *)
Lemma C1_counterexample :
  (exists fvar fvar_err,
      compute_fvar (Vec [1; 2; 3]) (Vec [1; nan; 1]) 0 =
      Ok (Scalar fvar, Scalar fvar_err) /\
      is_nan fvar = false /\
      is_nan (fst (fvar_spec [1; 2; 3] [1; nan; 1])) = true) /\
  compute_fvar (Mat [[1; 3]; [2; 5]; [4; 9]]) (Mat [[1; 1]; [1; 1]; [1; 1]]) 1 =
  Raise ValueError.
Proof.
  split.
  - eexists; eexists. split; [vm_compute; reflexivity|].
    split; vm_compute; reflexivity.
  - vm_compute. reflexivity.
Qed.

(** C2 (as amended). The sum behind the mean square error is NaN-aware:
    a NaN entry of [flux_err] is excluded, it contributes zero. The mean
    square error is the plain one of [flux_err] with its NaN entries set
    to zero, the sum it divides is never NaN, and [compute_fvar] returns
    what it returns on that cleaned [flux_err]. *)
Theorem C2_flux_err_nan_excluded :
  forall flux flux_err : list float64,
    sig_square_with nansum1 flux flux_err =
    sig_square_with sum1 flux (map nan_to_zero flux_err) /\
    is_nan (nansum1 (map sq flux_err)) = false /\
    compute_fvar (Vec flux) (Vec flux_err) 0 =
    compute_fvar (Vec flux) (Vec (map nan_to_zero flux_err)) 0.
Proof.
  intros flux flux_err. split; [apply sig_square_replace|]. split.
  - apply nonneg_not_nan, nansum_sq_nonneg.
  - rewrite !compute_fvar_vec. unfold fvar_lane, fvar_with.
    rewrite (sig_square_replace flux flux_err).
    rewrite (sig_square_replace flux (map nan_to_zero flux_err)).
    rewrite map_map.
    rewrite (map_ext (fun x => nan_to_zero (nan_to_zero x)) nan_to_zero).
    + reflexivity.
    + intros x. unfold nan_to_zero at 1. rewrite nan_to_zero_not_nan. reflexivity.
Qed.

(** C2 as stated fails: on [flux_err = [1; nan; 1]] a plain sum would
    make the mean square error NaN, and the code returns the finite pair
    it returns on [flux_err = [1; 0; 1]]. *)
Lemma C2_counterexample :
  existsb is_nan [1; nan; 1] = true /\
  is_nan (sig_square_with sum1 [1; 2; 3] [1; nan; 1]) = true /\
  exists fvar fvar_err,
    compute_fvar (Vec [1; 2; 3]) (Vec [1; nan; 1]) 0 =
    Ok (Scalar fvar, Scalar fvar_err) /\
    is_nan fvar = false /\ is_nan fvar_err = false /\
    compute_fvar (Vec [1; 2; 3]) (Vec [1; 0; 1]) 0 =
    Ok (Scalar fvar, Scalar fvar_err).
Proof.
  split; [reflexivity|]. split; [vm_compute; reflexivity|].
  eexists; eexists. split; [vm_compute; reflexivity|].
  repeat split; vm_compute; reflexivity.
Qed.

(** C3 (as amended). The sum over the squared first differences in
    [compute_fpp] is NaN-aware: the code returns the point-to-point
    formula with [np.nansum], the summed total is never NaN whatever
    NaN the series holds, and it is the plain sum of the squares once
    every NaN difference is set to zero. *)
Theorem C3_fpp_differences_nan_aware :
  forall flux flux_err : list float64,
    compute_fpp (Vec flux) (Vec flux_err) 0 =
    Ok (Scalar (fst (fpp_with nansum1 flux flux_err)),
        Scalar (snd (fpp_with nansum1 flux flux_err))) /\
    is_nan (nansum1 (sq_diffs flux)) = false /\
    nansum1 (sq_diffs flux) = sum1 (map sq (map nan_to_zero (diffs flux))).
Proof.
  intros flux flux_err. split; [apply compute_fpp_vec|]. split.
  - apply nonneg_not_nan, nansum_sq_nonneg.
  - apply nansum_sq_replace.
Qed.

(** C3 as stated fails: on [flux = [1; nan; 2; 3]] two of the three
    differences are NaN, a plain sum would make the variance term NaN,
    and the code returns a finite pair. *)
Lemma C3_counterexample :
  existsb is_nan (diffs [1; nan; 2; 3]) = true /\
  is_nan (s_square_fpp_with sum1 [1; nan; 2; 3]) = true /\
  is_nan (s_square_fpp_with nansum1 [1; nan; 2; 3]) = false /\
  exists fpp fpp_err,
    compute_fpp (Vec [1; nan; 2; 3]) (Vec [0.1; 0.1; 0.1; 0.1]) 0 =
    Ok (Scalar fpp, Scalar fpp_err) /\
    is_nan fpp = false /\ is_nan fpp_err = false.
Proof.
  split; [vm_compute; reflexivity|]. split; [vm_compute; reflexivity|].
  split; [vm_compute; reflexivity|].
  eexists; eexists. split; [vm_compute; reflexivity|].
  split; vm_compute; reflexivity.
Qed.

(** C4, the part that fails. On the 2 by 3 array below [compute_fvar]
    along axis 0 returns three values, and along axis 1 of the transpose
    it raises: [flux - flux_mean] aligns the means with the trailing axis.
    On a square array the same misalignment returns other values. *)
Theorem C4_fvar_axis_defect :
  compute_fvar (Mat [[1; 2; 4]; [3; 5; 9]]) (Mat [[1; 1; 1]; [1; 1; 1]]) 0 =
  Ok (Vec [0.5; 0.53452248382484879; 0.52171769100963605],
      Vec [0.43301270189221935; 0.21597969886241555; 0.11112540284840236]) /\
  compute_fvar (Mat (transpose [[1; 2; 4]; [3; 5; 9]]))
               (Mat (transpose [[1; 1; 1]; [1; 1; 1]])) 1 =
  Raise ValueError /\
  compute_fvar (Mat [[1; 2]; [3; 4]]) (Mat [[1; 1]; [1; 1]]) 0 =
  Ok (Vec [0.5; 0.33333333333333331],
      Vec [0.43301270189221935; 0.28867513459481292]) /\
  compute_fvar (Mat (transpose [[1; 2]; [3; 4]]))
               (Mat (transpose [[1; 1]; [1; 1]])) 1 =
  Ok (Vec [0; 0], Vec [infinity; infinity]).
Proof. repeat split; vm_compute; reflexivity. Qed.

(** On a 1-D series [compute_fvar] always returns, and each degenerate
    case of the returned pair is NaN or infinite: a zero mean, no valid
    entry or a single one for [fvar], a zero [fvar] for [fvar_err]. *)
Lemma compute_fvar_degenerate_vec (flux flux_err : list float64) :
  exists fvar fvar_err,
    compute_fvar (Vec flux) (Vec flux_err) 0 = Ok (Scalar fvar, Scalar fvar_err) /\
    (is_zero (nanmean1 flux) = true -> is_nan_or_inf fvar = true) /\
    (count1 flux = 0%Z -> is_nan fvar = true) /\
    (count1 flux = 1%Z -> is_nan_or_inf fvar = true) /\
    (is_zero fvar = true -> is_nan_or_inf fvar_err = true).
Proof.
  exists (fst (fvar_lane flux flux_err)), (snd (fvar_lane flux flux_err)).
  split; [apply compute_fvar_vec|apply fvar_lane_degenerate].
Qed.

(** The same along the leading axis of a 2-D array, column by column. *)
Lemma compute_fvar_degenerate_mat n m (flux flux_err : list (list float64)) :
  rect n m flux -> rect n m flux_err -> (1 <= n)%nat ->
  exists fvar fvar_err,
    compute_fvar (Mat flux) (Mat flux_err) 0 = Ok (Vec fvar, Vec fvar_err) /\
    forall j, (j < m)%nat ->
      (is_zero (nanmean1 (column j flux)) = true ->
       is_nan_or_inf (nth j fvar 0) = true) /\
      (count1 (column j flux) = 0%Z -> is_nan (nth j fvar 0) = true) /\
      (count1 (column j flux) = 1%Z -> is_nan_or_inf (nth j fvar 0) = true) /\
      (is_zero (nth j fvar 0) = true -> is_nan_or_inf (nth j fvar_err 0) = true).
Proof.
  intros HF HE H1. eexists; eexists.
  split; [apply (compute_fvar_mat n m flux flux_err HF HE H1)|].
  intros j Hj. rewrite !nth_map_seq by exact Hj.
  apply fvar_lane_degenerate.
Qed.

(** C5, the input on which it fails. The 2 by 3 array of zeros has a
    zero mean along axis 1, and the call raises on [flux - flux_mean]
    instead of returning NaN or infinite values; so does the 3 by 2
    array whose rows hold one valid entry each. Along axis 0 the zeros
    give infinite and NaN values. *)
Theorem C5_degenerate_axis1_raises :
  np_nanmean (Mat [[0; 0; 0]; [0; 0; 0]]) 1 = Ok (Vec [0; 0]) /\
  compute_fvar (Mat [[0; 0; 0]; [0; 0; 0]]) (Mat [[1; 1; 1]; [1; 1; 1]]) 1 =
  Raise ValueError /\
  count_not_nan (Mat [[7; nan]; [nan; 8]; [9; nan]]) 1 = Ok (IVec [1; 1; 1]%Z) /\
  compute_fvar (Mat [[7; nan]; [nan; 8]; [9; nan]])
               (Mat [[1; 1]; [1; 1]; [1; 1]]) 1 =
  Raise ValueError /\
  compute_fvar (Mat [[0; 0; 0]; [0; 0; 0]]) (Mat [[1; 1; 1]; [1; 1; 1]]) 0 =
  Ok (Vec [infinity; infinity; infinity], Vec [nan; nan; nan]).
Proof. repeat split; vm_compute; reflexivity. Qed.

(** C6 (as amended). When the mean square error exceeds the sample
    variance and the mean is positive and finite, [compute_fvar] reduced
    along the leading axis returns, and [fvar] is not NaN and not
    negative, [+infinity] included: the absolute value is taken before
    the square root. First for a 1-D series, then for a 2-D array
    reduced along axis 0, one value per column, then on the documented
    example, where [fvar] is finite. *)
Theorem C6_fvar_nonneg_when_noise_dominates :
  (forall flux flux_err : list float64,
      (s_square_fvar flux <? sig_square_with nansum1 flux flux_err) = true ->
      is_pos_finite (nanmean1 flux) = true ->
      exists fvar fvar_err,
        compute_fvar (Vec flux) (Vec flux_err) 0 = Ok (Scalar fvar, Scalar fvar_err) /\
        is_nonneg fvar = true /\ is_nan fvar = false) /\
  (forall (n m : nat) (flux flux_err : list (list float64)),
      rect n m flux -> rect n m flux_err -> (1 <= n)%nat ->
      exists fvar fvar_err,
        compute_fvar (Mat flux) (Mat flux_err) 0 = Ok (Vec fvar, Vec fvar_err) /\
        length fvar = m /\ length fvar_err = m /\
        forall j, (j < m)%nat ->
          (s_square_fvar (column j flux) <?
           sig_square_with nansum1 (column j flux) (column j flux_err)) = true ->
          is_pos_finite (nanmean1 (column j flux)) = true ->
          is_nonneg (nth j fvar 0) = true /\ is_nan (nth j fvar 0) = false) /\
  (s_square_fvar [10; 10.01; 9.99] <?
   sig_square_with nansum1 [10; 10.01; 9.99] [5; 5; 5]) = true /\
  is_pos_finite (nanmean1 [10; 10.01; 9.99]) = true /\
  compute_fvar (Vec [10; 10.01; 9.99]) (Vec [5; 5; 5]) 0 =
  Ok (Scalar 0.49999899999900005, Scalar 0.35355362629639842) /\
  is_finite 0.49999899999900005 = true.
Proof.
  split; [|split; [|repeat split; vm_compute; reflexivity]].
  - intros flux flux_err Hlt Hmu.
    exists (fst (fvar_lane flux flux_err)), (snd (fvar_lane flux flux_err)).
    split; [apply compute_fvar_vec|].
    assert (H : is_nonneg (fst (fvar_lane flux flux_err)) = true)
      by (apply fvar_nonneg; assumption).
    split; [exact H|apply nonneg_not_nan, H].
  - intros n m flux flux_err HF HE H1. eexists; eexists.
    split; [apply (compute_fvar_mat n m flux flux_err HF HE H1)|].
    rewrite !length_map, length_seq.
    split; [reflexivity|]. split; [reflexivity|].
    intros j Hj Hlt Hmu. rewrite nth_map_seq by exact Hj.
    assert (H : is_nonneg
                  (fst (fvar_lane (column j flux) (column j flux_err))) = true)
      by (apply fvar_nonneg; assumption).
    split; [exact H|apply nonneg_not_nan, H].
Qed.

(** C6 on the documented example: noise 25 over a variance of 0.0001. *)
Lemma C6_fvar_nonneg_witness :
  exists fvar fvar_err,
    compute_fvar (Vec [10; 10.01; 9.99]) (Vec [5; 5; 5]) 0 =
    Ok (Scalar fvar, Scalar fvar_err) /\
    is_nonneg fvar = true /\ is_nan fvar = false.
Proof.
  apply (proj1 C6_fvar_nonneg_when_noise_dominates [10; 10.01; 9.99] [5; 5; 5]);
    vm_compute; reflexivity.
Defined.

(** C6 as stated fails twice. With an error of 1e200 the mean square
    error overflows: both conditions hold and [fvar] is [+infinity], not
    a real number. And along axis 1 of a 2 by 3 array whose two rows
    meet both conditions the call raises on [flux - flux_mean]. *)
Lemma C6_counterexample :
  ((s_square_fvar [10; 10.01; 9.99] <?
    sig_square_with nansum1 [10; 10.01; 9.99] [1e200; 1; 1]) = true /\
   is_pos_finite (nanmean1 [10; 10.01; 9.99]) = true /\
   compute_fvar (Vec [10; 10.01; 9.99]) (Vec [1e200; 1; 1]) 0 =
   Ok (Scalar infinity, Scalar nan) /\
   is_finite infinity = false) /\
  (forallb (fun row =>
              (s_square_fvar row <? sig_square_with nansum1 row [5; 5; 5]) &&
              is_pos_finite (nanmean1 row))
           [[10; 10.01; 9.99]; [20; 20.02; 19.98]] = true /\
   compute_fvar (Mat [[10; 10.01; 9.99]; [20; 20.02; 19.98]])
                (Mat [[5; 5; 5]; [5; 5; 5]]) 1 =
   Raise ValueError).
Proof. repeat split; vm_compute; reflexivity. Qed.




(** C10 (as amended). The variance term of [compute_fpp] divides by the
    count of non-NaN flux entries minus one, taken on the input as given
    (here a 1-D series, then each column of a 2-D array), not by the
    number of difference terms summed. On a series without infinities
    the divisor is that number plus the number of runs of valid entries
    minus one; a single NaN strictly inside the series makes two runs,
    and the divisor exceeds the terms summed by one. *)
Theorem C10_fpp_divisor :
  (forall flux flux_err : list float64,
      compute_fpp (Vec flux) (Vec flux_err) 0 =
      Ok (Scalar (fst (excess_variance (nanmean1 flux) (count1 flux)
                         (nansum1 (sq_diffs flux) / Z2F (fpp_divisor flux))
                         (sig_square_with nansum1 flux flux_err))),
          Scalar (snd (excess_variance (nanmean1 flux) (count1 flux)
                         (nansum1 (sq_diffs flux) / Z2F (fpp_divisor flux))
                         (sig_square_with nansum1 flux flux_err))))) /\
  (forall (n m : nat) (flux flux_err : list (list float64)),
      rect n m flux -> rect n m flux_err -> (1 <= n)%nat ->
      exists fpp fpp_err,
        compute_fpp (Mat flux) (Mat flux_err) 0 = Ok (Vec fpp, Vec fpp_err) /\
        forall j, (j < m)%nat ->
          nth j fpp 0 =
          fst (excess_variance (nanmean1 (column j flux)) (count1 (column j flux))
                 (nansum1 (sq_diffs (column j flux)) /
                  Z2F (fpp_divisor (column j flux)))
                 (sig_square_with nansum1 (column j flux) (column j flux_err)))) /\
  (forall flux : list float64,
      no_infinity flux ->
      fpp_divisor flux = (summed_terms flux + Z.of_nat (runs flux) - 1)%Z) /\
  (forall (l1 l2 : list float64) (g : float64),
      l1 <> [] -> l2 <> [] -> is_nan g = true ->
      Forall (fun x => is_finite x = true) l1 ->
      Forall (fun x => is_finite x = true) l2 ->
      fpp_divisor (l1 ++ g :: l2) = (summed_terms (l1 ++ g :: l2) + 1)%Z).
Proof.
  split; [|split; [|split]].
  - exact compute_fpp_vec.
  - intros n m flux flux_err HF HE H1. eexists; eexists.
    split; [apply (compute_fpp_mat n m flux flux_err HF HE H1)|].
    intros j Hj. rewrite nth_map_seq by exact Hj. reflexivity.
  - exact fpp_divisor_terms.
  - intros l1 l2 g H1 H2 Hg F1 F2.
    assert (Hfin : forall l, Forall (fun x => is_finite x = true) l ->
                             Forall (fun x => valid x = true) l /\ no_infinity l).
    { intros l Hl. unfold no_infinity. rewrite !Forall_forall in *.
      split; intros x Hx; specialize (Hl x Hx); unfold is_finite, valid in *;
        destruct (is_nan x), (is_infinity x); try discriminate; reflexivity. }
    destruct (Hfin l1 F1) as [V1 I1]. destruct (Hfin l2 F2) as [V2 I2].
    assert (Hgi : is_infinity g = false).
    { rewrite is_infinity_spec. rewrite is_nan_spec in Hg.
      destruct (Prim2SF g); try discriminate; reflexivity. }
    rewrite fpp_divisor_terms.
    + rewrite (runs_single_gap l1 l2 g H1 H2); try assumption; [lia|].
      unfold valid. rewrite Hg. reflexivity.
    + unfold no_infinity in *. apply Forall_app. split; [exact I1|].
      constructor; assumption.
Qed.

(** C10 on [[1; nan; 2; 3]]: divisor 2, one term summed. *)
Lemma C10_fpp_divisor_witness :
  fpp_divisor ([1] ++ nan :: [2; 3]) =
  Z.add (summed_terms ([1] ++ nan :: [2; 3])) 1.
Proof.
  apply (proj2 (proj2 (proj2 C10_fpp_divisor)) [1] [2; 3] nan).
  - discriminate.
  - discriminate.
  - reflexivity.
  - repeat constructor.
  - repeat constructor.
Defined.

(** C10 as stated fails: in [[1; nan; 2; nan; 3]] the entry at index 1
    is an interior NaN, the divisor is 2 and no difference term is
    summed, so the divisor exceeds the terms summed by two; in
    [[nan; nan; nan]] the divisor is -1 and does not exceed them. *)
Lemma C10_counterexample :
  is_nan (nth 1 [1; nan; 2; nan; 3] 0) = true /\
  fpp_divisor [1; nan; 2; nan; 3] = 2%Z /\
  summed_terms [1; nan; 2; nan; 3] = 0%Z /\
  is_nan (nth 1 [nan; nan; nan] 0) = true /\
  fpp_divisor [nan; nan; nan] = (-1)%Z /\
  summed_terms [nan; nan; nan] = 0%Z.
Proof. repeat split; vm_compute; reflexivity. Qed.

End Claims.

(** ** Further facts on sums, signs and shapes *)

Module MoreFacts.
Import IEEE IEEEFacts Np Variability NpFacts Lanes SumFacts LaneFacts FppCount.

(** *** Adding zero *)

(** The exponent of a primitive float is never below the least one. *)
Lemma bounded_emin (m : positive) (e : Z) :
  bounded prec emax m e = true -> (emin <= e)%Z.
Proof.
  unfold bounded, canonical_mantissa. intros H.
  apply andb_prop in H. destruct H as [H _]. apply Z.eqb_eq in H.
  unfold fexp in H. lia.
Qed.

Lemma SFadd_not_neg_zero (a b : spec_float) :
  valid_binary a = true -> valid_binary b = true ->
  a <> S754_zero true -> SF64add a b <> S754_zero true.
Proof.
  intros Va Vb Ha.
  destruct a as [sa|sa| |sa ma ea]; destruct b as [sb|sb| |sb mb eb];
    try (simpl; discriminate); try (simpl; destruct sa, sb; discriminate).
  - destruct sa; [congruence|]. destruct sb; simpl; discriminate.
  - simpl in Va, Vb. apply bounded_emin in Va. apply bounded_emin in Vb.
    unfold SF64add, SFadd.
    set (z := (cond_Zopp sa _ + cond_Zopp sb _)%Z). clearbody z.
    destruct z as [|p|p]; simpl binary_normalize; [discriminate| |].
    + pose proof (binary_round_signed false p (Z.min ea eb)) as H.
      intros E. rewrite E in H. simpl in H. discriminate.
    + pose proof (binary_round_signed_nz true p (Z.min ea eb) ltac:(lia)) as H.
      intros E. rewrite E in H. simpl in H. exact H.
Qed.

(** Adding [+0] changes nothing but the negative zero. *)
Lemma add_zero_r (a : float64) : Prim2SF a <> S754_zero true -> a + 0 = a.
Proof.
  intros Ha. apply Prim2SF_inj. rewrite add_spec, Prim2SF_zero.
  destruct (Prim2SF a) as [[]|s| |s m e]; try reflexivity. congruence.
Qed.

Lemma add_not_neg_zero (a x : float64) :
  Prim2SF a <> S754_zero true -> Prim2SF (a + x) <> S754_zero true.
Proof.
  intros Ha. rewrite add_spec.
  apply SFadd_not_neg_zero; [apply Prim2SF_valid|apply Prim2SF_valid|exact Ha].
Qed.

(** Terms equal to zero can be left out of an index-order sum. *)
Lemma fold_add_skip (t : float64 -> float64) (keep : float64 -> bool)
  (l : list float64) :
  (forall x, keep x = false -> t x = 0) ->
  forall a, Prim2SF a <> S754_zero true ->
    fold_left PrimFloat.add (map t l) a =
    fold_left PrimFloat.add (map t (filter keep l)) a.
Proof.
  intros Ht. induction l as [|x l IH]; intros a Ha; [reflexivity|].
  cbn [map filter fold_left]. destruct (keep x) eqn:K.
  - cbn [map fold_left]. apply IH, add_not_neg_zero, Ha.
  - rewrite (Ht x K), (add_zero_r a Ha). apply IH, Ha.
Qed.

Lemma filter_valid_idem (l : list float64) :
  filter valid (filter valid l) = filter valid l.
Proof.
  induction l as [|x l IH]; [reflexivity|]. simpl.
  destruct (valid x) eqn:V; [|exact IH]. simpl. rewrite V, IH. reflexivity.
Qed.

Lemma count1_filter_valid (l : list float64) : count1 (filter valid l) = count1 l.
Proof.
  unfold count1. change (fun x => negb (is_nan x)) with valid.
  rewrite filter_valid_idem. reflexivity.
Qed.

Lemma nan_to_zero_invalid (x : float64) : valid x = false -> nan_to_zero x = 0.
Proof.
  unfold valid, nan_to_zero. intros H. apply negb_false_iff in H.
  rewrite H. reflexivity.
Qed.

(** A NaN-aware sum is the NaN-aware sum of the valid entries. *)
Lemma nansum1_filter_valid (l : list float64) :
  nansum1 l = nansum1 (filter valid l).
Proof.
  unfold nansum1, sum1.
  apply (fold_add_skip nan_to_zero valid l nan_to_zero_invalid). discriminate.
Qed.

Lemma nanmean1_filter_valid (l : list float64) :
  nanmean1 (filter valid l) = nanmean1 l.
Proof.
  unfold nanmean1. rewrite count1_filter_valid, <- nansum1_filter_valid. reflexivity.
Qed.

Lemma s_square_fvar_filter_valid (l : list float64) :
  s_square_fvar (filter valid l) = s_square_fvar l.
Proof.
  unfold s_square_fvar.
  rewrite nanmean1_filter_valid, count1_filter_valid. f_equal.
  unfold nansum1, sum1. rewrite !map_map. symmetry.
  apply (fold_add_skip (fun x => nan_to_zero (sq (x - nanmean1 l))) valid l);
    [|discriminate].
  intros x Hx. unfold valid in Hx. apply negb_false_iff in Hx.
  unfold nan_to_zero, sq. rewrite (nan_mul_nan _ (sub_nan_l x _ Hx)). reflexivity.
Qed.

Lemma fvar_lane_filter_valid (flux flux_err : list float64) :
  fvar_lane (filter valid flux) flux_err = fvar_lane flux flux_err.
Proof.
  unfold fvar_lane, fvar_with, sig_square_with.
  rewrite nanmean1_filter_valid, count1_filter_valid, s_square_fvar_filter_valid.
  reflexivity.
Qed.

(** *** The sign of the estimator *)

Lemma SFsqrt_abs_nan_or_nonneg (d : spec_float) :
  sf_is_nan (SF64sqrt (SFabs d)) = true \/ sf_nonneg (SF64sqrt (SFabs d)) = true.
Proof.
  destruct (sf_is_nan d) eqn:E.
  - left. destruct d; try discriminate. reflexivity.
  - right. apply SFsqrt_abs_nonneg, E.
Qed.

Lemma SFdiv_signed (a b : spec_float) (s : bool) :
  sf_nonneg a = true ->
  match b with S754_finite sb _ _ | S754_infinity sb => sb = s | _ => False end ->
  sf_is_nan (SF64div a b) = true \/ sf_is_zero (SF64div a b) = true \/
  sf_signed s (SF64div a b).
Proof.
  destruct a as [sa|[]| |[] ma ea]; destruct b as [sb|sb| |sb mb eb];
    simpl; intros Ha Hb; try discriminate; try tauto; subst;
    try (right; left; reflexivity); try (left; reflexivity);
    try (right; right; simpl; reflexivity).
  right; right. unfold SF64div, SFdiv.
  pose proof (SFdiv_core_nonneg ma mb ea eb) as Hq.
  destruct (SFdiv_core_binary prec emax (Z.pos ma) ea (Z.pos mb) eb) as [[mz ez] lz].
  simpl in Hq. exact (binary_round_aux_signed (xorb false s) mz ez lz Hq).
Qed.

(** With a negative mean the estimator is never positive, with a
    positive mean never negative. *)
Lemma fvar_sign_neg mu n s g :
  (mu <? 0) = true -> (0 <? fst (excess_variance mu n s g)) = false.
Proof.
  unfold excess_variance. cbn [fst].
  rewrite !ltb_spec, div_spec, sqrt_spec, abs_spec, sub_spec, Prim2SF_zero.
  set (d := SF64sub (Prim2SF s) (Prim2SF g)).
  intros Hmu.
  destruct (SFsqrt_abs_nan_or_nonneg d) as [H|H].
  - destruct (SF64sqrt (SFabs d)); try discriminate. reflexivity.
  - assert (Hb : match Prim2SF mu with
                 | S754_finite sb _ _ | S754_infinity sb => sb = true
                 | _ => False end).
    { destruct (Prim2SF mu) as [sb|[]| |[] mb eb]; try discriminate; reflexivity. }
    destruct (SFdiv_signed _ _ true H Hb) as [H1|[H1|H1]];
      destruct (SF64div (SF64sqrt (SFabs d)) (Prim2SF mu))
        as [sr|sr| |sr mr er]; simpl in H1; try discriminate; try tauto;
      subst; reflexivity.
Qed.

Lemma fvar_sign_pos mu n s g :
  (0 <? mu) = true -> (fst (excess_variance mu n s g) <? 0) = false.
Proof.
  unfold excess_variance. cbn [fst].
  rewrite !ltb_spec, div_spec, sqrt_spec, abs_spec, sub_spec, Prim2SF_zero.
  set (d := SF64sub (Prim2SF s) (Prim2SF g)).
  intros Hmu.
  destruct (SFsqrt_abs_nan_or_nonneg d) as [H|H].
  - destruct (SF64sqrt (SFabs d)); try discriminate. reflexivity.
  - assert (Hb : match Prim2SF mu with
                 | S754_finite sb _ _ | S754_infinity sb => sb = false
                 | _ => False end).
    { destruct (Prim2SF mu) as [sb|[]| |[] mb eb]; try discriminate; reflexivity. }
    destruct (SFdiv_signed _ _ false H Hb) as [H1|[H1|H1]];
      destruct (SF64div (SF64sqrt (SFabs d)) (Prim2SF mu))
        as [sr|sr| |sr mr er]; simpl in H1; try discriminate; try tauto;
      subst; reflexivity.
Qed.

(** A NaN estimator has a NaN error. *)
Lemma fvar_err_nan mu n s g :
  is_nan (fst (excess_variance mu n s g)) = true ->
  is_nan (snd (excess_variance mu n s g)) = true.
Proof.
  unfold excess_variance. cbn [fst snd]. intros H.
  apply div_nan_r. rewrite is_nan_spec, mul_spec. rewrite is_nan_spec in H.
  destruct (Prim2SF (PrimFloat.sqrt (abs (s - g)) / mu)); try discriminate.
  destruct (Prim2SF 2); reflexivity.
Qed.

Lemma zero_div_nonzero (y : float64) :
  is_zero y = false -> is_nan y = false -> is_zero (0 / y) = true.
Proof.
  rewrite !is_zero_spec, is_nan_spec, div_spec, Prim2SF_zero.
  destruct (Prim2SF y); simpl; try discriminate; reflexivity.
Qed.

(** *** Shapes that do not broadcast *)

Lemma bcast_vec_mismatch (f : float64 -> float64 -> float64) u v :
  length u <> length v -> length u <> 1%nat -> length v <> 1%nat ->
  bcast_vec f u v = Raise ValueError.
Proof.
  intros H H1 H2. unfold bcast_vec.
  rewrite (proj2 (Nat.eqb_neq _ _) H), (proj2 (Nat.eqb_neq _ _) H1),
    (proj2 (Nat.eqb_neq _ _) H2). reflexivity.
Qed.

Lemma rect_first_row n m rows :
  rect n m rows -> (1 <= n)%nat -> exists r rest, rows = r :: rest /\ length r = m.
Proof.
  intros [Hn Hr] H1. destruct rows as [|r rest]; simpl in Hn; [lia|].
  exists r, rest. split; [reflexivity|]. inversion Hr; assumption.
Qed.

(** *** Differences of a constant series *)

Lemma diffs_repeat (c : float64) (n : nat) :
  diffs (repeat c n) = repeat (c - c) (n - 1).
Proof.
  destruct n as [|n]; [reflexivity|].
  induction n as [|n IH]; [reflexivity|].
  change (repeat c (S (S n))) with (c :: c :: repeat c n).
  rewrite diffs_cons. change (c :: repeat c n) with (repeat c (S n)).
  rewrite IH. simpl. rewrite Nat.sub_0_r. reflexivity.
Qed.

Lemma fpp_constant (c : float64) (n : nat) :
  sf_pos_finite (SFabs (Prim2SF c)) = true ->
  (2 <= n)%nat -> (Z.of_nat n < 2 ^ 63)%Z ->
  is_zero (nanmean1 (repeat c n)) = false ->
  is_nan (nanmean1 (repeat c n)) = false ->
  is_zero (fst (fpp_lane (repeat c n) (repeat 0 n))) = true.
Proof.
  intros Hc Hn Hbig Hz Hnan.
  assert (Hcn : is_nan c = false).
  { rewrite is_nan_spec. destruct (Prim2SF c); try discriminate; reflexivity. }
  unfold fpp_lane, fpp_with, s_square_fpp_with, sig_square_with, sq_diffs.
  rewrite diffs_repeat, (count1_repeat c n Hcn), !map_repeat.
  rewrite (sub_self_zero c Hc).
  change (sq 0) with 0. rewrite !nansum1_zeros.
  rewrite (zero_div_pos (Z2F (Z.of_nat n - 1))) by (apply Z2F_pos; lia).
  rewrite (zero_div_pos (Z2F (Z.of_nat n))) by (apply Z2F_pos; lia).
  unfold excess_variance. cbn [fst].
  change (PrimFloat.sqrt (abs (0 - 0))) with 0.
  apply zero_div_nonzero; assumption.
Qed.

(** *** Runs of a series whose NaN entries are at its ends *)

Lemma runs_from_all_invalid (l : list float64) (prev : bool) :
  Forall (fun x => valid x = false) l -> runs_from prev l = 0%nat.
Proof.
  revert prev. induction l as [|x l IH]; intros prev H; [reflexivity|].
  inversion H as [|? ? Hx Hl]; subst. cbn [runs_from].
  rewrite Hx, (IH false Hl). reflexivity.
Qed.

Lemma last_valid_all_invalid (l : list float64) :
  Forall (fun x => valid x = false) l -> last (map valid l) false = false.
Proof.
  induction l as [|x l IH]; intros H; [reflexivity|].
  inversion H as [|? ? Hx Hl]; subst. cbn [map].
  destruct (map valid l) as [|v vs] eqn:E; [exact Hx|].
  change (last (valid x :: v :: vs) false) with (last (v :: vs) false).
  apply IH, Hl.
Qed.

Lemma runs_block (l0 block l2 : list float64) :
  block <> [] ->
  Forall (fun x => valid x = false) l0 ->
  Forall (fun x => valid x = true) block ->
  Forall (fun x => valid x = false) l2 ->
  runs (l0 ++ block ++ l2) = 1%nat.
Proof.
  intros Hb H0 Hv H2. unfold runs.
  rewrite runs_from_app, (runs_from_all_invalid l0 false H0).
  rewrite (last_valid_all_invalid l0 H0).
  rewrite runs_from_app, (runs_from_all_valid block false Hv).
  rewrite (runs_from_all_invalid l2 _ H2).
  destruct block; [congruence|reflexivity].
Qed.

(** *** [compute_fvar] up to the first use of [flux_err] *)

Lemma compute_fvar_mat_prefix n m (flux : list (list float64)) (flux_err : ndarray) :
  rect n m flux -> (1 <= n)%nat ->
  compute_fvar (Mat flux) flux_err 0 =
  (err_sum <- np_nansum (np_square flux_err) 0 ;;
   sig_square <- np_div err_sum
                   (Vec (map (fun j => Z2F (count1 (column j flux))) (seq 0 m))) ;;
   estimator_tail
     (Vec (map (fun j => nanmean1 (column j flux)) (seq 0 m)))
     (IVec (map (fun j => count1 (column j flux)) (seq 0 m)))
     (Vec (map (fun j => s_square_fvar (column j flux)) (seq 0 m)))
     sig_square).
Proof.
  intros HF H1. rewrite compute_fvar_tail.
  unfold np_nanmean.
  rewrite (reduce_axis0 nanmean1 n m flux HF H1). cbn [bind].
  rewrite (count_axis0 n m flux HF H1). cbn [bind].
  rewrite (sub_rows_vec n m flux) by
    (try exact HF; rewrite length_map, length_seq; reflexivity).
  cbn [bind np_square unop].
  unfold np_nansum at 1.
  rewrite (reduce_axis0 nansum1 n m).
  2:{ apply rect_map; [apply rect_map; [exact HF|]|].
      - intros r Hr. rewrite zip_with_length; rewrite ?length_map, ?length_seq; auto.
      - intros r Hr. rewrite length_map. exact Hr. }
  2: exact H1.
  cbn [bind].
  rewrite (map_ext_in _ (fun j => nansum1 (map (fun x => sq (x - nanmean1 (column j flux)))
                                               (column j flux)))).
  2:{ intros j Hj. apply in_seq in Hj.
      rewrite (column_dev n m flux (fun j => nanmean1 (column j flux)) j HF) by lia.
      reflexivity. }
  rewrite int_sub_IVec, !to_float_IVec.
  unfold np_div at 1. rewrite binop_VV. cbn [bind].
  reflexivity.
Qed.

Lemma normalize_axis_out (axis ndim : Z) :
  (axis < - ndim \/ ndim <= axis)%Z -> normalize_axis axis ndim = Raise AxisError.
Proof.
  intros H. unfold normalize_axis.
  destruct ((- ndim <=? axis)%Z && (axis <? ndim)%Z) eqn:E; [|reflexivity].
  apply andb_prop in E. destruct E as [E1 E2].
  apply Z.leb_le in E1. apply Z.ltb_lt in E2. lia.
Qed.

(** *** NaN entries at the ends of a series *)

Lemma fold_add_not_neg_zero (l : list float64) (a : float64) :
  Prim2SF a <> S754_zero true ->
  Prim2SF (fold_left PrimFloat.add l a) <> S754_zero true.
Proof.
  revert a. induction l as [|x l IH]; intros a Ha; [exact Ha|].
  apply IH, add_not_neg_zero, Ha.
Qed.

Lemma diffs_snoc (x y : float64) (l : list float64) :
  diffs ((x :: l) ++ [y]) = diffs (x :: l) ++ [y - last (x :: l) 0].
Proof.
  revert x. induction l as [|z l IH]; intros x; [reflexivity|].
  change ((x :: z :: l) ++ [y]) with (x :: ((z :: l) ++ [y])).
  change ((z :: l) ++ [y]) with (z :: (l ++ [y])).
  rewrite !diffs_cons.
  change (z :: l ++ [y]) with ((z :: l) ++ [y]). rewrite IH. reflexivity.
Qed.

Lemma nansum_sq_diffs_nan_first (x : float64) (l : list float64) :
  is_nan x = true -> nansum1 (sq_diffs (x :: l)) = nansum1 (sq_diffs l).
Proof.
  intros Hx. destruct l as [|y l]; [reflexivity|].
  unfold sq_diffs. rewrite diffs_cons. unfold nansum1, sum1. cbn [map fold_left].
  unfold nan_to_zero at 2, sq at 2.
  rewrite (nan_mul_nan _ (sub_nan_r y x Hx)). reflexivity.
Qed.

Lemma nansum_sq_diffs_nan_last (y : float64) (l : list float64) :
  is_nan y = true -> nansum1 (sq_diffs (l ++ [y])) = nansum1 (sq_diffs l).
Proof.
  intros Hy. destruct l as [|x l]; [reflexivity|].
  unfold sq_diffs. rewrite diffs_snoc. unfold nansum1, sum1.
  rewrite !map_app, fold_left_app. cbn [map fold_left].
  unfold nan_to_zero at 2, sq at 2.
  rewrite (nan_mul_nan _ (sub_nan_l y _ Hy)).
  apply add_zero_r, fold_add_not_neg_zero. discriminate.
Qed.

Lemma filter_valid_nan_first (x : float64) (l : list float64) :
  is_nan x = true -> filter valid (x :: l) = filter valid l.
Proof. intros Hx. simpl. unfold valid at 1. rewrite Hx. reflexivity. Qed.

Lemma filter_valid_nan_last (y : float64) (l : list float64) :
  is_nan y = true -> filter valid (l ++ [y]) = filter valid l.
Proof.
  intros Hy. rewrite filter_app. simpl. unfold valid at 2. rewrite Hy.
  apply app_nil_r.
Qed.

(** The point-to-point formula does not see a NaN at either end. *)
Lemma fpp_lane_same_valid (l l' flux_err : list float64) :
  filter valid l = filter valid l' ->
  nansum1 (sq_diffs l) = nansum1 (sq_diffs l') ->
  fpp_lane l flux_err = fpp_lane l' flux_err.
Proof.
  intros Hf Hs.
  assert (Hm : nanmean1 l = nanmean1 l')
    by (rewrite <- (nanmean1_filter_valid l), <- (nanmean1_filter_valid l'), Hf;
        reflexivity).
  assert (Hc : count1 l = count1 l')
    by (rewrite <- (count1_filter_valid l), <- (count1_filter_valid l'), Hf;
        reflexivity).
  unfold fpp_lane, fpp_with, s_square_fpp_with, sig_square_with.
  rewrite Hm, Hc, Hs. reflexivity.
Qed.

Lemma fpp_lane_nan_first (x : float64) (l flux_err : list float64) :
  is_nan x = true -> fpp_lane (x :: l) flux_err = fpp_lane l flux_err.
Proof.
  intros Hx. apply fpp_lane_same_valid.
  - apply filter_valid_nan_first, Hx.
  - apply nansum_sq_diffs_nan_first, Hx.
Qed.

Lemma fpp_lane_nan_last (y : float64) (l flux_err : list float64) :
  is_nan y = true -> fpp_lane (l ++ [y]) flux_err = fpp_lane l flux_err.
Proof.
  intros Hy. apply fpp_lane_same_valid.
  - apply filter_valid_nan_last, Hy.
  - apply nansum_sq_diffs_nan_last, Hy.
Qed.

Lemma fpp_lane_nan_prefix (l0 l flux_err : list float64) :
  Forall (fun x => is_nan x = true) l0 ->
  fpp_lane (l0 ++ l) flux_err = fpp_lane l flux_err.
Proof.
  induction 1 as [|x l0 Hx _ IH]; [reflexivity|].
  cbn [app]. rewrite (fpp_lane_nan_first x _ flux_err Hx). exact IH.
Qed.

Lemma fpp_lane_nan_suffix (l l2 flux_err : list float64) :
  Forall (fun x => is_nan x = true) l2 ->
  fpp_lane (l ++ l2) flux_err = fpp_lane l flux_err.
Proof.
  intros H. revert l. induction H as [|y l2 Hy _ IH]; intros l.
  - rewrite app_nil_r. reflexivity.
  - change (y :: l2) with ([y] ++ l2). rewrite app_assoc, IH.
    apply fpp_lane_nan_last, Hy.
Qed.

(** *** [compute_fvar] along axis 1 of a square array *)

Lemma compute_fvar_square n (flux flux_err : list (list float64)) :
  rect n n flux -> rect n n flux_err -> (1 <= n)%nat ->
  compute_fvar (Mat flux) (Mat flux_err) 1 =
  Ok (Vec (map (fun p =>
                  fst (excess_variance (nanmean1 (fst p)) (count1 (fst p))
                         (nansum1 (map sq (zip_with PrimFloat.sub (fst p)
                                             (map nanmean1 flux))) /
                          Z2F (count1 (fst p) - 1))
                         (sig_square_with nansum1 (fst p) (snd p))))
               (combine flux flux_err)),
      Vec (map (fun p =>
                  snd (excess_variance (nanmean1 (fst p)) (count1 (fst p))
                         (nansum1 (map sq (zip_with PrimFloat.sub (fst p)
                                             (map nanmean1 flux))) /
                          Z2F (count1 (fst p) - 1))
                         (sig_square_with nansum1 (fst p) (snd p))))
               (combine flux flux_err))).
Proof.
  intros HF HE Hn. rewrite compute_fvar_tail.
  assert (Hlen : length flux = length flux_err)
    by (destruct HF as [-> _]; destruct HE as [-> _]; reflexivity).
  cbn [np_nanmean reduce count_not_nan bind].
  change (normalize_axis 1 2) with (@Ok Z 1%Z). cbn [bind Z.eqb].
  rewrite (sub_rows_vec n n flux (map nanmean1 flux) HF)
    by (rewrite length_map; apply HF).
  cbn [bind np_square unop np_nansum reduce].
  change (normalize_axis 1 2) with (@Ok Z 1%Z). cbn [bind Z.eqb].
  pose proof (map_fst_combine flux flux_err Hlen) as EF.
  pose proof (map_snd_combine flux flux_err Hlen) as EE.
  set (L := combine flux flux_err) in *.
  rewrite <- EF, <- EE, !map_map.
  rewrite int_sub_IVec, !to_float_IVec.
  unfold np_div at 1. rewrite binop_VV. cbn [bind].
  unfold np_div at 1. rewrite binop_VV. cbn [bind].
  rewrite (estimator_tail_vec
             (fun p => nanmean1 (fst p)) (fun p => count1 (fst p))).
  reflexivity.
Qed.

End MoreFacts.

(** ** Further properties of the module *)

Module Extras.
Import IEEE IEEEFacts Np Variability NpFacts Lanes SumFacts LaneFacts FppCount
  MoreFacts.

(** X1. [compute_fpp] does not depend on which axis holds the series,
    for series of fewer than 8 entries (the lengths numpy adds in index
    order whatever the memory layout): along axis 0 of an array it
    returns what it returns along axis 1 of the transposed array, one
    value per series. *)
Theorem X1_compute_fpp_axis_invariant :
  forall (n m : nat) (flux flux_err : list (list float64)),
    rect n m flux -> rect n m flux_err ->
    (1 <= n)%nat -> (n < 8)%nat -> (1 <= m)%nat ->
    compute_fpp (Mat flux) (Mat flux_err) 0 =
    compute_fpp (Mat (transpose flux)) (Mat (transpose flux_err)) 1 /\
    exists fpp fpp_err,
      compute_fpp (Mat flux) (Mat flux_err) 0 = Ok (Vec fpp, Vec fpp_err) /\
      length fpp = m /\ length fpp_err = m.
Proof.
  intros n m flux flux_err HF HE Hn _ Hm. split.
  - apply (compute_fpp_transpose n m); assumption.
  - eexists; eexists.
    split; [apply (compute_fpp_mat n m flux flux_err HF HE Hn)|].
    rewrite !length_map, length_seq. split; reflexivity.
Qed.

Lemma X1_compute_fpp_axis_invariant_witness :
  compute_fpp (Mat [[1; 2; 4]; [3; 5; 9]]) (Mat [[1; 1; 1]; [1; 1; 1]]) 0 =
  compute_fpp (Mat (transpose [[1; 2; 4]; [3; 5; 9]]))
              (Mat (transpose [[1; 1; 1]; [1; 1; 1]])) 1 /\
  exists fpp fpp_err,
    compute_fpp (Mat [[1; 2; 4]; [3; 5; 9]]) (Mat [[1; 1; 1]; [1; 1; 1]]) 0 =
    Ok (Vec fpp, Vec fpp_err) /\
    length fpp = 3%nat /\ length fpp_err = 3%nat.
Proof.
  apply (X1_compute_fpp_axis_invariant 2 3).
  - split; [reflexivity|repeat constructor].
  - split; [reflexivity|repeat constructor].
  - lia.
  - lia.
  - lia.
Defined.

(** X2. [compute_fvar] along axis 1 raises on every 2-D array that is
    not square and has more than one row and more than one column: the
    row means do not broadcast against the rows. *)
Theorem X2_compute_fvar_axis1_raises :
  forall (n m : nat) (flux : list (list float64)) (flux_err : ndarray),
    rect n m flux -> n <> m -> n <> 1%nat -> m <> 1%nat -> (1 <= n)%nat ->
    compute_fvar (Mat flux) flux_err 1 = Raise ValueError.
Proof.
  intros n m flux flux_err HF Hnm Hn1 Hm1 Hn.
  destruct (rect_first_row n m flux HF Hn) as [r [rest [-> Hr]]].
  rewrite compute_fvar_tail.
  cbn [np_nanmean reduce bind count_not_nan].
  change (normalize_axis 1 2) with (@Ok Z 1%Z). cbn [bind Z.eqb].
  unfold np_sub. cbn [binop mapM].
  rewrite bcast_vec_mismatch; [reflexivity| | |].
  - rewrite Hr, length_map. destruct HF as [HF _]. rewrite HF. congruence.
  - rewrite Hr. exact Hm1.
  - rewrite length_map. destruct HF as [HF _]. rewrite HF. exact Hn1.
Qed.

Lemma X2_compute_fvar_axis1_raises_witness :
  compute_fvar (Mat [[1; 3]; [2; 5]; [4; 9]]) (Mat [[1; 1]; [1; 1]; [1; 1]]) 1 =
  Raise ValueError.
Proof.
  apply (X2_compute_fvar_axis1_raises 3 2).
  - split; [reflexivity|repeat constructor].
  - lia.
  - lia.
  - lia.
  - lia.
Defined.

(** X3. [compute_fvar] ignores the NaN entries of a 1-D flux series of
    fewer than 8 entries (the lengths numpy adds in index order)
    altogether: it returns what it returns on the series with those
    entries deleted, [flux_err] being used in full either way. *)
Theorem X3_compute_fvar_drops_nan_flux :
  forall flux flux_err : list float64,
    (length flux < 8)%nat ->
    compute_fvar (Vec flux) (Vec flux_err) 0 =
    compute_fvar (Vec (filter (fun x => negb (is_nan x)) flux)) (Vec flux_err) 0.
Proof.
  intros flux flux_err _. rewrite !compute_fvar_vec.
  change (fun x => negb (is_nan x)) with valid.
  rewrite fvar_lane_filter_valid. reflexivity.
Qed.

Lemma X3_compute_fvar_drops_nan_flux_witness :
  compute_fvar (Vec [1; nan; 2; 4]) (Vec [1; 1; 1; 1]) 0 =
  compute_fvar (Vec (filter (fun x => negb (is_nan x)) [1; nan; 2; 4]))
               (Vec [1; 1; 1; 1]) 0.
Proof.
  apply (X3_compute_fvar_drops_nan_flux [1; nan; 2; 4] [1; 1; 1; 1]).
  simpl. lia.
Defined.

(** X4. [compute_fpp] excludes the NaN entries of [flux_err] as
    [compute_fvar] does: it returns what it returns with those entries
    set to zero. *)
Theorem X4_compute_fpp_flux_err_nan_excluded :
  forall flux flux_err : list float64,
    compute_fpp (Vec flux) (Vec flux_err) 0 =
    compute_fpp (Vec flux) (Vec (map nan_to_zero flux_err)) 0.
Proof.
  intros flux flux_err. rewrite !compute_fpp_vec.
  unfold fpp_lane, fpp_with.
  rewrite (sig_square_replace flux flux_err).
  rewrite (sig_square_replace flux (map nan_to_zero flux_err)).
  rewrite map_map.
  rewrite (map_ext (fun x => nan_to_zero (nan_to_zero x)) nan_to_zero).
  - reflexivity.
  - intros x. unfold nan_to_zero at 1. rewrite nan_to_zero_not_nan. reflexivity.
Qed.

(** X5. On a 1-D series [compute_fpp] never raises, and its degenerate
    cases end in NaN or an infinity: [fpp] when the mean is zero or when
    the series has no valid entry or a single one (in particular when it
    has fewer than two entries), [fpp_err] when [fpp] is zero. *)
Theorem X5_compute_fpp_degenerate :
  forall flux flux_err : list float64,
    exists fpp fpp_err,
      compute_fpp (Vec flux) (Vec flux_err) 0 = Ok (Scalar fpp, Scalar fpp_err) /\
      (is_zero (nanmean1 flux) = true -> is_nan_or_inf fpp = true) /\
      (count1 flux = 0%Z -> is_nan fpp = true) /\
      (count1 flux = 1%Z -> is_nan_or_inf fpp = true) /\
      ((length flux <= 1)%nat -> is_nan_or_inf fpp = true) /\
      (is_zero fpp = true -> is_nan_or_inf fpp_err = true).
Proof.
  intros flux flux_err.
  exists (fst (fpp_lane flux flux_err)), (snd (fpp_lane flux flux_err)).
  split; [apply compute_fpp_vec|].
  unfold fpp_lane, fpp_with.
  assert (H0 : count1 flux = 0%Z ->
               is_nan (fst (excess_variance (nanmean1 flux) (count1 flux)
                              (s_square_fpp_with nansum1 flux)
                              (sig_square_with nansum1 flux flux_err))) = true).
  { intros H. apply fvar_nan_mean, nanmean1_empty, H. }
  assert (H1 : count1 flux = 1%Z ->
               is_nan_or_inf (fst (excess_variance (nanmean1 flux) (count1 flux)
                                     (s_square_fpp_with nansum1 flux)
                                     (sig_square_with nansum1 flux flux_err))) = true).
  { intros H. apply fvar_nan_or_inf_variance. unfold s_square_fpp_with.
    rewrite H. apply div_zero_nan_or_inf. reflexivity. }
  repeat split.
  - apply fvar_zero_mean.
  - exact H0.
  - exact H1.
  - intros Hlen. destruct flux as [|x [|y l]]; simpl in Hlen; try lia.
    + apply nan_is_nan_or_inf, H0. reflexivity.
    + destruct (is_nan x) eqn:E.
      * apply nan_is_nan_or_inf, H0. unfold count1. simpl. rewrite E. reflexivity.
      * apply H1. unfold count1. simpl. rewrite E. reflexivity.
  - apply fvar_err_zero_fvar.
Qed.

(** X6. When the mean square error exceeds the point-to-point variance
    and the mean is positive and finite, [compute_fpp] returns an [fpp]
    that is not NaN and not negative. *)
Theorem X6_compute_fpp_nonneg_when_noise_dominates :
  forall flux flux_err : list float64,
    (s_square_fpp_with nansum1 flux <? sig_square_with nansum1 flux flux_err) = true ->
    is_pos_finite (nanmean1 flux) = true ->
    exists fpp fpp_err,
      compute_fpp (Vec flux) (Vec flux_err) 0 = Ok (Scalar fpp, Scalar fpp_err) /\
      is_nonneg fpp = true /\ is_nan fpp = false.
Proof.
  intros flux flux_err Hlt Hmu.
  exists (fst (fpp_lane flux flux_err)), (snd (fpp_lane flux flux_err)).
  split; [apply compute_fpp_vec|].
  assert (H : is_nonneg (fst (fpp_lane flux flux_err)) = true)
    by (apply fvar_nonneg; assumption).
  split; [exact H|apply nonneg_not_nan, H].
Qed.

Lemma X6_compute_fpp_nonneg_witness :
  exists fpp fpp_err,
    compute_fpp (Vec [10; 10.01; 9.99]) (Vec [5; 5; 5]) 0 =
    Ok (Scalar fpp, Scalar fpp_err) /\
    is_nonneg fpp = true /\ is_nan fpp = false.
Proof.
  apply (X6_compute_fpp_nonneg_when_noise_dominates [10; 10.01; 9.99] [5; 5; 5]);
    vm_compute; reflexivity.
Defined.

(** X7. Both estimators take the sign of the mean flux, which is not
    made positive before the division: with a negative mean the value
    returned is never positive, with a positive mean never negative. *)
Theorem X7_estimator_sign_of_mean :
  forall flux flux_err : list float64,
    exists fvar fvar_err fpp fpp_err,
      compute_fvar (Vec flux) (Vec flux_err) 0 = Ok (Scalar fvar, Scalar fvar_err) /\
      compute_fpp (Vec flux) (Vec flux_err) 0 = Ok (Scalar fpp, Scalar fpp_err) /\
      ((nanmean1 flux <? 0) = true ->
       (0 <? fvar) = false /\ (0 <? fpp) = false) /\
      ((0 <? nanmean1 flux) = true ->
       (fvar <? 0) = false /\ (fpp <? 0) = false).
Proof.
  intros flux flux_err.
  exists (fst (fvar_lane flux flux_err)), (snd (fvar_lane flux flux_err)),
         (fst (fpp_lane flux flux_err)), (snd (fpp_lane flux flux_err)).
  split; [apply compute_fvar_vec|]. split; [apply compute_fpp_vec|].
  unfold fvar_lane, fvar_with, fpp_lane, fpp_with.
  split; intros H; split;
    first [apply fvar_sign_neg, H | apply fvar_sign_pos, H].
Qed.

(** X8. Whenever the estimator returned is NaN, so is its error, for
    [compute_fvar] and for [compute_fpp]. *)
Theorem X8_nan_estimator_nan_error :
  forall flux flux_err : list float64,
    exists fvar fvar_err fpp fpp_err,
      compute_fvar (Vec flux) (Vec flux_err) 0 = Ok (Scalar fvar, Scalar fvar_err) /\
      compute_fpp (Vec flux) (Vec flux_err) 0 = Ok (Scalar fpp, Scalar fpp_err) /\
      (is_nan fvar = true -> is_nan fvar_err = true) /\
      (is_nan fpp = true -> is_nan fpp_err = true).
Proof.
  intros flux flux_err.
  exists (fst (fvar_lane flux flux_err)), (snd (fvar_lane flux flux_err)),
         (fst (fpp_lane flux flux_err)), (snd (fpp_lane flux flux_err)).
  split; [apply compute_fvar_vec|]. split; [apply compute_fpp_vec|].
  unfold fvar_lane, fvar_with, fpp_lane, fpp_with.
  split; apply fvar_err_nan.
Qed.

(** X9. Along axis 0 of a 2-D array [compute_fvar] makes no check of
    the shape of [flux_err] beyond what broadcasting forces: with as
    many columns as [flux] and any number of rows it returns the formula
    of each column, and with another number of columns (neither being
    one) it raises. *)
Theorem X9_compute_fvar_flux_err_shape :
  (forall (n n' m : nat) (flux flux_err : list (list float64)),
      rect n m flux -> rect n' m flux_err -> (1 <= n)%nat -> (1 <= n')%nat ->
      compute_fvar (Mat flux) (Mat flux_err) 0 =
      Ok (Vec (map (fun j => fst (fvar_lane (column j flux) (column j flux_err)))
                   (seq 0 m)),
          Vec (map (fun j => snd (fvar_lane (column j flux) (column j flux_err)))
                   (seq 0 m)))) /\
  (forall (n n' m m' : nat) (flux flux_err : list (list float64)),
      rect n m flux -> rect n' m' flux_err -> (1 <= n)%nat -> (1 <= n')%nat ->
      m <> m' -> m <> 1%nat -> m' <> 1%nat ->
      compute_fvar (Mat flux) (Mat flux_err) 0 = Raise ValueError).
Proof.
  split.
  - intros n n' m flux flux_err HF HE Hn Hn'.
    rewrite (compute_fvar_mat_prefix n m flux (Mat flux_err) HF Hn).
    unfold np_nansum. cbn [np_square unop].
    rewrite (reduce_axis0 nansum1 n' m).
    2:{ apply rect_map; [exact HE|]. intros r Hr. rewrite length_map. exact Hr. }
    2: exact Hn'.
    cbn [bind].
    rewrite (map_ext_in _ (fun j => nansum1 (map sq (column j flux_err)))).
    2:{ intros j Hj. apply in_seq in Hj.
        rewrite (column_map_map sq n' m flux_err j HE) by lia. reflexivity. }
    unfold np_div at 1. rewrite binop_VV. cbn [bind].
    rewrite (estimator_tail_vec
               (fun j => nanmean1 (column j flux))
               (fun j => count1 (column j flux))).
    reflexivity.
  - intros n n' m m' flux flux_err HF HE Hn Hn' Hmm Hm Hm'.
    rewrite (compute_fvar_mat_prefix n m flux (Mat flux_err) HF Hn).
    unfold np_nansum. cbn [np_square unop].
    rewrite (reduce_axis0 nansum1 n' m').
    2:{ apply rect_map; [exact HE|]. intros r Hr. rewrite length_map. exact Hr. }
    2: exact Hn'.
    cbn [bind]. unfold np_div at 1. cbn [binop].
    rewrite bcast_vec_mismatch; rewrite ?length_map, ?length_seq;
      [reflexivity|congruence|exact Hm'|exact Hm].
Qed.

Lemma X9_compute_fvar_flux_err_shape_witness :
  compute_fvar (Mat [[1; 2; 4]; [3; 5; 9]]) (Mat [[1; 1]; [1; 1]]) 0 =
  Raise ValueError.
Proof.
  apply (proj2 X9_compute_fvar_flux_err_shape 2 2 3 2)%nat.
  - split; [reflexivity|repeat constructor].
  - split; [reflexivity|repeat constructor].
  - lia.
  - lia.
  - lia.
  - lia.
  - lia.
Defined.

(** X10. The axis must lie between minus the rank and the rank of a
    1-D or 2-D input, and be 0 or -1 for a 0-d input: any other axis
    makes both estimators raise [AxisError] at the first reduction. A
    negative axis in range counts from the last axis. On a 0-d input
    with axis 0 or -1 [compute_fvar] returns, and the single point gives
    a NaN pair. *)
Theorem X10_axis_bounds :
  (forall (x : float64) (flux_err : ndarray) (axis : Z),
      (axis < -1 \/ 1 <= axis)%Z ->
      compute_fvar (Scalar x) flux_err axis = Raise AxisError /\
      compute_fpp (Scalar x) flux_err axis = Raise AxisError) /\
  compute_fvar (Scalar 3) (Scalar 1) 0 = Ok (Scalar nan, Scalar nan) /\
  compute_fvar (Scalar 3) (Scalar 1) (-1) = Ok (Scalar nan, Scalar nan) /\
  (forall (flux : list float64) (flux_err : ndarray) (axis : Z),
      (axis < -1 \/ 1 <= axis)%Z ->
      compute_fvar (Vec flux) flux_err axis = Raise AxisError /\
      compute_fpp (Vec flux) flux_err axis = Raise AxisError) /\
  (forall (flux : list (list float64)) (flux_err : ndarray) (axis : Z),
      (axis < -2 \/ 2 <= axis)%Z ->
      compute_fvar (Mat flux) flux_err axis = Raise AxisError /\
      compute_fpp (Mat flux) flux_err axis = Raise AxisError) /\
  (forall flux flux_err : list float64,
      compute_fvar (Vec flux) (Vec flux_err) (-1) =
      compute_fvar (Vec flux) (Vec flux_err) 0 /\
      compute_fpp (Vec flux) (Vec flux_err) (-1) =
      compute_fpp (Vec flux) (Vec flux_err) 0) /\
  (forall flux flux_err : list (list float64),
      compute_fvar (Mat flux) (Mat flux_err) (-2) =
      compute_fvar (Mat flux) (Mat flux_err) 0 /\
      compute_fpp (Mat flux) (Mat flux_err) (-2) =
      compute_fpp (Mat flux) (Mat flux_err) 0 /\
      compute_fvar (Mat flux) (Mat flux_err) (-1) =
      compute_fvar (Mat flux) (Mat flux_err) 1 /\
      compute_fpp (Mat flux) (Mat flux_err) (-1) =
      compute_fpp (Mat flux) (Mat flux_err) 1).
Proof.
  split; [|split; [|split; [|split; [|split; [|split]]]]].
  - intros x flux_err axis H.
    rewrite compute_fvar_tail, compute_fpp_tail.
    cbn [np_nanmean reduce]. unfold normalize_axis_0d.
    replace ((axis =? 0) || (axis =? -1))%Z with false by lia.
    split; reflexivity.
  - vm_compute. reflexivity.
  - vm_compute. reflexivity.
  - intros flux flux_err axis H.
    rewrite compute_fvar_tail, compute_fpp_tail.
    cbn [np_nanmean reduce].
    rewrite (normalize_axis_out axis 1) by lia. split; reflexivity.
  - intros flux flux_err axis H.
    rewrite compute_fvar_tail, compute_fpp_tail.
    cbn [np_nanmean reduce].
    rewrite (normalize_axis_out axis 2) by lia. split; reflexivity.
  - intros flux flux_err. split; reflexivity.
  - intros flux flux_err.
    assert (Hfvar : forall a b : Z,
               normalize_axis a 2 = normalize_axis b 2 ->
               compute_fvar (Mat flux) (Mat flux_err) a =
               compute_fvar (Mat flux) (Mat flux_err) b).
    { intros a b Hab. rewrite !compute_fvar_tail.
      cbn [np_nanmean reduce count_not_nan]. rewrite Hab.
      destruct (normalize_axis b 2) as [ax|e] eqn:Eb; [|reflexivity].
      cbn [bind]. unfold np_sub. cbn [binop].
      destruct (mapM _ flux) as [dev|e]; [|reflexivity].
      cbn [bind np_nansum np_square unop reduce]. rewrite Hab, Eb. reflexivity. }
    repeat split; try (apply Hfvar; reflexivity); reflexivity.
Qed.

Lemma X10_axis_bounds_witness :
  compute_fvar (Vec [1; 2; 4]) (Vec [1; 1; 1]) 1 = Raise AxisError /\
  compute_fpp (Vec [1; 2; 4]) (Vec [1; 1; 1]) 1 = Raise AxisError.
Proof.
  apply (proj1 (proj2 (proj2 (proj2 X10_axis_bounds))) [1; 2; 4] (Vec [1; 1; 1]) 1%Z).
  lia.
Defined.

(** X12. On a 1-D series constant at a finite non-zero value, of at
    least two entries, with zero errors, [compute_fpp] returns a zero
    [fpp] as soon as the mean is a non-zero number: the differences are
    exactly zero, whether or not the mean is rounded. *)
Theorem X12_compute_fpp_constant_series :
  forall (c : float64) (n : nat),
    sf_pos_finite (SFabs (Prim2SF c)) = true ->
    (2 <= n)%nat -> (Z.of_nat n < 2 ^ 63)%Z ->
    is_zero (nanmean1 (repeat c n)) = false ->
    is_nan (nanmean1 (repeat c n)) = false ->
    exists fpp fpp_err,
      compute_fpp (Vec (repeat c n)) (Vec (repeat 0 n)) 0 =
      Ok (Scalar fpp, Scalar fpp_err) /\
      is_zero fpp = true.
Proof.
  intros c n Hc Hn Hbig Hz Hnan.
  exists (fst (fpp_lane (repeat c n) (repeat 0 n))),
         (snd (fpp_lane (repeat c n) (repeat 0 n))).
  split; [apply compute_fpp_vec|apply fpp_constant; assumption].
Qed.

(** X12 on three entries 0.1, whose mean is rounded. *)
Lemma X12_compute_fpp_constant_witness :
  exists fpp fpp_err,
    compute_fpp (Vec (repeat 0.1 3)) (Vec (repeat 0 3)) 0 =
    Ok (Scalar fpp, Scalar fpp_err) /\
    is_zero fpp = true.
Proof.
  apply (X12_compute_fpp_constant_series 0.1 3%nat).
  - reflexivity.
  - lia.
  - reflexivity.
  - vm_compute. reflexivity.
  - vm_compute. reflexivity.
Defined.

(** X13. When the NaN entries of a series without infinities are all at
    its ends, around a block of valid entries, the divisor of the
    point-to-point variance is the number of difference terms summed;
    for a series without NaN it is the number of differences. *)
Theorem X13_fpp_divisor_nan_at_ends :
  forall l0 block l2 : list float64,
    block <> [] ->
    Forall (fun x => is_nan x = true) l0 ->
    Forall (fun x => is_finite x = true) block ->
    Forall (fun x => is_nan x = true) l2 ->
    fpp_divisor (l0 ++ block ++ l2) = summed_terms (l0 ++ block ++ l2) /\
    fpp_divisor (l0 ++ block ++ l2) = (Z.of_nat (length block) - 1)%Z.
Proof.
  intros l0 block l2 Hb H0 Hf H2.
  assert (Hnan : forall l, Forall (fun x => is_nan x = true) l ->
                           Forall (fun x => valid x = false) l /\ no_infinity l).
  { intros l Hl. unfold no_infinity. rewrite !Forall_forall in *.
    split; intros x Hx; specialize (Hl x Hx).
    - unfold valid. rewrite Hl. reflexivity.
    - rewrite is_infinity_spec. rewrite is_nan_spec in Hl.
      destruct (Prim2SF x); try discriminate; reflexivity. }
  assert (Hfin : Forall (fun x => valid x = true) block /\ no_infinity block).
  { unfold no_infinity. rewrite !Forall_forall in *.
    split; intros x Hx; specialize (Hf x Hx); unfold is_finite, valid in *;
      destruct (is_nan x), (is_infinity x); try discriminate; reflexivity. }
  destruct (Hnan l0 H0) as [V0 I0]. destruct (Hnan l2 H2) as [V2 I2].
  destruct Hfin as [Vb Ib].
  assert (Hinf : no_infinity (l0 ++ block ++ l2)).
  { unfold no_infinity in *. apply Forall_app. split; [exact I0|].
    apply Forall_app. split; assumption. }
  split.
  - rewrite (fpp_divisor_terms _ Hinf), (runs_block l0 block l2 Hb V0 Vb V2). lia.
  - unfold fpp_divisor, count1. rewrite !filter_app, !length_app.
    change (fun x => negb (is_nan x)) with valid.
    assert (Hnone : forall l, Forall (fun x => valid x = false) l ->
                              filter valid l = []).
    { intros l Hl. induction Hl as [|x l Hx _ IH]; [reflexivity|].
      simpl. rewrite Hx. exact IH. }
    assert (Hall : filter valid block = block).
    { clear - Vb. induction Vb as [|x l Hx _ IH]; [reflexivity|].
      simpl. rewrite Hx, IH. reflexivity. }
    rewrite (Hnone l0 V0), (Hnone l2 V2), Hall. simpl length. lia.
Qed.

Lemma X13_fpp_divisor_nan_at_ends_witness :
  fpp_divisor ([nan] ++ [1; 2; 4] ++ [nan; nan]) =
  summed_terms ([nan] ++ [1; 2; 4] ++ [nan; nan]) /\
  fpp_divisor ([nan] ++ [1; 2; 4] ++ [nan; nan]) = 2%Z.
Proof.
  apply (X13_fpp_divisor_nan_at_ends [nan] [1; 2; 4] [nan; nan]).
  - discriminate.
  - repeat constructor.
  - repeat constructor.
  - repeat constructor.
Defined.

(** X15. On a 2-D array [compute_fpp] applies the point-to-point
    formula to every column along axis 0 and to every row along axis 1,
    and returns one pair per series. *)
Theorem X15_compute_fpp_lanes :
  forall (n m : nat) (flux flux_err : list (list float64)),
    rect n m flux -> rect n m flux_err -> (1 <= n)%nat -> (1 <= m)%nat ->
    compute_fpp (Mat flux) (Mat flux_err) 0 =
    Ok (Vec (map (fun j => fst (fpp_lane (column j flux) (column j flux_err)))
                 (seq 0 m)),
        Vec (map (fun j => snd (fpp_lane (column j flux) (column j flux_err)))
                 (seq 0 m))) /\
    compute_fpp (Mat flux) (Mat flux_err) 1 =
    Ok (Vec (map (fun i => fst (fpp_lane (nth i flux []) (nth i flux_err [])))
                 (seq 0 n)),
        Vec (map (fun i => snd (fpp_lane (nth i flux []) (nth i flux_err [])))
                 (seq 0 n))).
Proof.
  intros n m flux flux_err HF HE Hn Hm. split.
  - apply (compute_fpp_mat n m); assumption.
  - rewrite (compute_fpp_rows n m flux flux_err HF HE Hn Hm).
    rewrite <- (map_nth_seq_id [] flux n) at 1 2 by apply HF.
    rewrite <- (map_nth_seq_id [] flux_err n) at 1 2 by apply HE.
    rewrite combine_map_same, !map_map. reflexivity.
Qed.

Lemma X15_compute_fpp_lanes_witness :
  compute_fpp (Mat [[1; 2; 4]; [3; 5; 9]]) (Mat [[1; 1; 1]; [1; 1; 1]]) 0 =
  Ok (Vec (map (fun j => fst (fpp_lane (column j [[1; 2; 4]; [3; 5; 9]])
                                       (column j [[1; 1; 1]; [1; 1; 1]])))
               (seq 0 3)),
      Vec (map (fun j => snd (fpp_lane (column j [[1; 2; 4]; [3; 5; 9]])
                                       (column j [[1; 1; 1]; [1; 1; 1]])))
               (seq 0 3))) /\
  compute_fpp (Mat [[1; 2; 4]; [3; 5; 9]]) (Mat [[1; 1; 1]; [1; 1; 1]]) 1 =
  Ok (Vec (map (fun i => fst (fpp_lane (nth i [[1; 2; 4]; [3; 5; 9]] [])
                                       (nth i [[1; 1; 1]; [1; 1; 1]] [])))
               (seq 0 2)),
      Vec (map (fun i => snd (fpp_lane (nth i [[1; 2; 4]; [3; 5; 9]] [])
                                       (nth i [[1; 1; 1]; [1; 1; 1]] [])))
               (seq 0 2))).
Proof.
  apply (X15_compute_fpp_lanes 2 3).
  - split; [reflexivity|repeat constructor].
  - split; [reflexivity|repeat constructor].
  - lia.
  - lia.
Defined.

(** X11. Along axis 1 of a square array [compute_fvar] returns, but
    the deviations of a row are taken entry by entry against the vector
    of all row means (entry [k] against the mean of row [k]), not
    against the mean of that row. *)
Theorem X11_compute_fvar_axis1_square :
  forall (n : nat) (flux flux_err : list (list float64)),
    rect n n flux -> rect n n flux_err -> (1 <= n)%nat ->
    compute_fvar (Mat flux) (Mat flux_err) 1 =
    Ok (Vec (map (fun p =>
                    fst (excess_variance (nanmean1 (fst p)) (count1 (fst p))
                           (nansum1 (map sq (zip_with PrimFloat.sub (fst p)
                                               (map nanmean1 flux))) /
                            Z2F (count1 (fst p) - 1))
                           (sig_square_with nansum1 (fst p) (snd p))))
                 (combine flux flux_err)),
        Vec (map (fun p =>
                    snd (excess_variance (nanmean1 (fst p)) (count1 (fst p))
                           (nansum1 (map sq (zip_with PrimFloat.sub (fst p)
                                               (map nanmean1 flux))) /
                            Z2F (count1 (fst p) - 1))
                           (sig_square_with nansum1 (fst p) (snd p))))
                 (combine flux flux_err))) /\
    length (map nanmean1 flux) = n.
Proof.
  intros n flux flux_err HF HE Hn. split.
  - apply (compute_fvar_square n); assumption.
  - rewrite length_map. apply HF.
Qed.

Lemma X11_compute_fvar_axis1_square_witness :
  compute_fvar (Mat [[1; 3]; [2; 4]]) (Mat [[1; 1]; [1; 1]]) 1 =
  Ok (Vec (map (fun p =>
                  fst (excess_variance (nanmean1 (fst p)) (count1 (fst p))
                         (nansum1 (map sq (zip_with PrimFloat.sub (fst p)
                                             (map nanmean1 [[1; 3]; [2; 4]]))) /
                          Z2F (count1 (fst p) - 1))
                         (sig_square_with nansum1 (fst p) (snd p))))
               (combine [[1; 3]; [2; 4]] [[1; 1]; [1; 1]])),
      Vec (map (fun p =>
                  snd (excess_variance (nanmean1 (fst p)) (count1 (fst p))
                         (nansum1 (map sq (zip_with PrimFloat.sub (fst p)
                                             (map nanmean1 [[1; 3]; [2; 4]]))) /
                          Z2F (count1 (fst p) - 1))
                         (sig_square_with nansum1 (fst p) (snd p))))
               (combine [[1; 3]; [2; 4]] [[1; 1]; [1; 1]]))) /\
  length (map nanmean1 [[1; 3]; [2; 4]]) = 2%nat.
Proof.
  apply (X11_compute_fvar_axis1_square 2).
  - split; [reflexivity|repeat constructor].
  - split; [reflexivity|repeat constructor].
  - lia.
Defined.

(** X16. [compute_fpp] does not see NaN entries at the ends of a 1-D
    flux series of fewer than 8 entries in all (the lengths numpy adds
    in index order): with NaN entries before and after a series it
    returns what it returns on the series alone. *)
Theorem X16_compute_fpp_ignores_nan_at_ends :
  forall l0 flux l2 flux_err : list float64,
    Forall (fun x => is_nan x = true) l0 ->
    Forall (fun x => is_nan x = true) l2 ->
    (length (l0 ++ flux ++ l2) < 8)%nat ->
    compute_fpp (Vec (l0 ++ flux ++ l2)) (Vec flux_err) 0 =
    compute_fpp (Vec flux) (Vec flux_err) 0.
Proof.
  intros l0 flux l2 flux_err H0 H2 _. rewrite !compute_fpp_vec.
  rewrite (fpp_lane_nan_prefix l0 (flux ++ l2) flux_err H0).
  rewrite (fpp_lane_nan_suffix flux l2 flux_err H2). reflexivity.
Qed.

Lemma X16_compute_fpp_ignores_nan_at_ends_witness :
  compute_fpp (Vec ([nan] ++ [1; 2; 4] ++ [nan; nan])) (Vec [1; 1; 1]) 0 =
  compute_fpp (Vec [1; 2; 4]) (Vec [1; 1; 1]) 0.
Proof.
  apply (X16_compute_fpp_ignores_nan_at_ends [nan] [1; 2; 4] [nan; nan]).
  - repeat constructor.
  - repeat constructor.
  - simpl. lia.
Defined.

End Extras.

(** ** The version strings of the documentation build *)

Module DocsConfFacts.
Import Ascii String DocsConf.

Lemma has_hyphen_append (a b : string) :
  has_hyphen (append a b) = has_hyphen a || has_hyphen b.
Proof.
  induction a as [|c a IH]; [reflexivity|].
  simpl. rewrite IH. apply orb_assoc.
Qed.

(** What [split('-', 1)] returns: one part without hyphen when the text
    has none, else the part before the first hyphen and the rest. *)
Lemma split_hyphen_once_spec (s : string) :
  exists first others,
    split_hyphen_once s = first :: others /\
    has_hyphen first = false /\
    ((others = [] /\ s = first) \/
     (exists rest, others = [rest] /\ s = append first (String hyphen rest))).
Proof.
  induction s as [|c s IH].
  - exists EmptyString, []. repeat split. left. split; reflexivity.
  - simpl. destruct (Ascii.eqb c hyphen) eqn:E.
    + apply Ascii.eqb_eq in E. subst c.
      exists EmptyString, [s]. repeat split. right. exists s. split; reflexivity.
    + destruct IH as [first [others [Hs [Hh Hc]]]]. rewrite Hs.
      exists (String c first), others. split; [reflexivity|]. split.
      * simpl. rewrite E, Hh. reflexivity.
      * destruct Hc as [[-> ->]|[rest [-> ->]]].
        -- left. split; reflexivity.
        -- right. exists rest. split; reflexivity.
Qed.

(** X14. The short version of the documentation is the release up to
    its first hyphen: taking it never fails, it holds no hyphen, it is
    the whole release when that holds none, otherwise the release is the
    version, a hyphen and a remainder; and joining the parts of the
    split with a hyphen gives the release back. *)
Theorem X14_docs_version_of_release :
  forall package_version : string,
    exists v,
      version package_version = Some v /\
      has_hyphen v = false /\
      (has_hyphen (release package_version) = false ->
       v = release package_version) /\
      (has_hyphen (release package_version) = true ->
       exists rest, release package_version = append v (String hyphen rest)) /\
      join_hyphen (split_hyphen_once package_version) = release package_version.
Proof.
  intros pv. unfold version, release.
  destruct (split_hyphen_once_spec pv) as [first [others [Hs [Hh Hc]]]].
  rewrite Hs. exists first. split; [reflexivity|]. split; [exact Hh|].
  destruct Hc as [[-> ->]|[rest [-> ->]]].
  - split; [reflexivity|]. split; [|reflexivity].
    intros H. congruence.
  - split; [|split; [|reflexivity]].
    + rewrite has_hyphen_append.
      change (has_hyphen (String hyphen rest)) with true.
      rewrite orb_true_r. discriminate.
    + intros _. exists rest. reflexivity.
Qed.

End DocsConfFacts.
